(** * Verification of the pace42 agent service: data normalizer, gathering
    orchestrator and intent planner.

    Shallow embedding of
    - [src/pace42-final/agent-service/src/data/normalizer.py]
    - [src/pace42-final/agent-service/src/agents/coach_qa.py]
    - [src/pace42-final/agent-service/src/agents/base_agent.py]
    - [src/pace42-final/agent-service/src/mcp/garmin_client_v2.py]
      (the activity listing of the MCP client).

    Python values are modelled by the JSON-shaped type [pyval].  Numbers are
    CPython's: an [int] is an integer, a [float] an IEEE 754 binary64 number
    ([spec_float]), with int true division correctly rounded; [sum] is the
    left-to-right fold of [+] of CPython 3.11 (3.12 compensates the rounding
    of float sums).  Python exceptions are modelled by the error monad
    [result].  Strings are byte strings with ASCII case mapping, except the
    user ids of the token store, which are sequences of code points. *)

From Stdlib Require Import String Ascii List Bool ZArith SpecFloat Lia.
Import ListNotations.
Open Scope string_scope.
Set Warnings "-register-all".

(** ** Python values and exceptions *)

(** Python floats are IEEE 754 binary64 numbers: 53 bits of precision and
    exponents up to 1024. *)
Definition prec : Z := 53.
Definition emax : Z := 1024.

(** [0.0] *)
Definition fzero : spec_float := S754_zero false.

Inductive pyval : Type :=
| PNone
| PBool (b : bool)
| PInt (z : Z)
| PFloat (f : spec_float)
| PStr (s : string)
| PList (l : list pyval)
| PDict (d : list (string * pyval)).

Definition dict := list (string * pyval).

Inductive exn : Type :=
| JSONDecodeError
| TypeError
| AttributeError
| KeyError
| ZeroDivisionError
| UpstreamError
| OverflowError
| ValueError.

Inductive result (A : Type) : Type :=
| Ok (a : A)
| Exc (e : exn).
Arguments Ok {A} a.
Arguments Exc {A} e.

Definition bind {A B} (m : result A) (k : A -> result B) : result B :=
  match m with
  | Ok a => k a
  | Exc e => Exc e
  end.

Notation "x <- m ;; k" := (bind m (fun x => k))
  (at level 61, m at next level, right associativity).

(** Python truthiness ([bool(v)]); a NaN is true. *)
Definition truthy (v : pyval) : bool :=
  match v with
  | PNone => false
  | PBool b => b
  | PInt z => negb (Z.eqb z 0)
  | PFloat f => negb (SFeqb f fzero)
  | PStr s => negb (String.eqb s "")
  | PList l => match l with [] => false | _ => true end
  | PDict d => match d with [] => false | _ => true end
  end.

(** [d.get(k, default)] on a dict. *)
Fixpoint dict_get (d : dict) (k : string) (default : pyval) : pyval :=
  match d with
  | [] => default
  | (k', v) :: r => if String.eqb k k' then v else dict_get r k default
  end.

(** [k in d]. *)
Definition dict_has (d : dict) (k : string) : bool :=
  existsb (fun kv => String.eqb (fst kv) k) d.

(** [d[k] = v]: replaces the value in place, or appends a new key. *)
Fixpoint dict_set (d : dict) (k : string) (v : pyval) : dict :=
  match d with
  | [] => [(k, v)]
  | (k', v') :: r =>
      if String.eqb k k' then (k', v) :: r else (k', v') :: dict_set r k v
  end.

(** [v.get(k, default)] on any value: only dicts have [get]. *)
Definition py_get (v : pyval) (k : string) (default : pyval) : result pyval :=
  match v with
  | PDict d => Ok (dict_get d k default)
  | _ => Exc AttributeError
  end.

(** ** Python numbers (CPython's [int] and [float]) *)

Inductive pynum : Type :=
| NInt (z : Z)
| NFloat (f : spec_float).

(** A Python number ([bool] is a subclass of [int]). *)
Definition py_number (v : pyval) : option pynum :=
  match v with
  | PInt z => Some (NInt z)
  | PBool b => Some (NInt (if b then 1 else 0)%Z)
  | PFloat f => Some (NFloat f)
  | _ => None
  end.

(** [float(n)] for an int: correctly rounded, [OverflowError] when too
    large. *)
Definition int_to_float (z : Z) : result spec_float :=
  match binary_normalize prec emax z 0 false with
  | S754_infinity _ => Exc OverflowError
  | f => Ok f
  end.

Definition to_float (n : pynum) : result spec_float :=
  match n with
  | NInt z => int_to_float z
  | NFloat f => Ok f
  end.

(** [a + b], [a - b], [a * b]: exact on two ints, otherwise in floats
    (an int operand is converted first). *)
Definition py_arith (zop : Z -> Z -> Z) (fop : spec_float -> spec_float -> spec_float)
    (a b : pyval) : result pyval :=
  match py_number a, py_number b with
  | Some (NInt x), Some (NInt y) => Ok (PInt (zop x y))
  | Some x, Some y =>
      fx <- to_float x ;;
      fy <- to_float y ;;
      Ok (PFloat (fop fx fy))
  | _, _ => Exc TypeError
  end.

Definition py_add := py_arith Z.add (SFadd prec emax).
Definition py_sub := py_arith Z.sub (SFsub prec emax).
Definition py_mul := py_arith Z.mul (SFmul prec emax).

(** [x / y] on two ints ([long_true_divide]): the exact quotient rounded
    once to a float. *)
Definition int_true_div (x y : Z) : result spec_float :=
  if (y =? 0)%Z then Exc ZeroDivisionError
  else if (x =? 0)%Z then Ok (S754_zero (y <? 0)%Z)
  else
    let '(m, e, l) := SFdiv_core_binary prec emax (Z.abs x) 0 (Z.abs y) 0 in
    match binary_round_aux prec emax (xorb (x <? 0)%Z (y <? 0)%Z) m e l with
    | S754_infinity _ => Exc OverflowError
    | f => Ok f
    end.

(** [a / b]: true division, raising on a zero divisor. *)
Definition py_div (a b : pyval) : result pyval :=
  match py_number a, py_number b with
  | Some (NInt x), Some (NInt y) =>
      f <- int_true_div x y ;;
      Ok (PFloat f)
  | Some x, Some y =>
      fx <- to_float x ;;
      fy <- to_float y ;;
      if SFeqb fy fzero then Exc ZeroDivisionError else Ok (PFloat (SFdiv prec emax fx fy))
  | _, _ => Exc TypeError
  end.

(** [v == 0]. *)
Definition py_eqz (v : pyval) : bool :=
  match py_number v with
  | Some (NInt z) => Z.eqb z 0
  | Some (NFloat f) => SFeqb f fzero
  | None => false
  end.

(** [a > 0]. *)
Definition py_gt0 (a : pyval) : result bool :=
  match py_number a with
  | Some (NInt z) => Ok (0 <? z)%Z
  | Some (NFloat f) => Ok (SFltb fzero f)
  | None => Exc TypeError
  end.

(** [a <= 0]. *)
Definition py_le0 (a : pyval) : result bool :=
  match py_number a with
  | Some (NInt z) => Ok (z <=? 0)%Z
  | Some (NFloat f) => Ok (SFleb f fzero)
  | None => Exc TypeError
  end.

(** [int(f)] for a float: truncation toward zero. *)
Definition float_to_int (f : spec_float) : result Z :=
  match f with
  | S754_zero _ => Ok 0%Z
  | S754_infinity _ => Exc OverflowError
  | S754_nan => Exc ValueError
  | S754_finite s m e =>
      Ok (cond_Zopp s (if (0 <=? e)%Z then Z.shiftl (Zpos m) e else Z.shiftr (Zpos m) (- e)))
  end.

(** [int(n)] for a number. *)
Definition py_int (n : pynum) : result Z :=
  match n with
  | NInt z => Ok z
  | NFloat f => float_to_int f
  end.

Definition as_dict (v : pyval) : option dict :=
  match v with PDict d => Some d | _ => None end.

Definition is_list (v : pyval) : bool :=
  match v with PList _ => true | _ => false end.

Definition is_str (v : pyval) : bool :=
  match v with PStr _ => true | _ => false end.

(** ** Strings *)

Definition ascii_lower (c : ascii) : ascii :=
  let n := nat_of_ascii c in
  if Nat.leb 65 n && Nat.leb n 90 then ascii_of_nat (n + 32)%nat else c.

(** [s.lower()] *)
Fixpoint py_lower (s : string) : string :=
  match s with
  | EmptyString => EmptyString
  | String c r => String (ascii_lower c) (py_lower r)
  end.

(** Characters of [str.isspace()] (the regular-expression class [\s]). *)
Definition is_space (c : ascii) : bool :=
  let n := nat_of_ascii c in
  (Nat.leb 9 n && Nat.leb n 13) || (Nat.leb 28 n && Nat.leb n 32).

Fixpoint lstrip (s : string) : string :=
  match s with
  | String c r => if is_space c then lstrip r else s
  | EmptyString => EmptyString
  end.

Fixpoint rstrip (s : string) : string :=
  match s with
  | EmptyString => EmptyString
  | String c r =>
      let r' := rstrip r in
      if String.eqb r' "" && is_space c then "" else String c r'
  end.

(** [s.strip()] *)
Definition py_strip (s : string) : string := rstrip (lstrip s).

(** [s.split()]: the current word and the words after it. *)
Fixpoint split_ws (s : string) : string * list string :=
  match s with
  | EmptyString => ("", [])
  | String c r =>
      let (w, ws) := split_ws r in
      if is_space c then ("", if String.eqb w "" then ws else w :: ws)
      else (String c w, ws)
  end.

Definition py_split (s : string) : list string :=
  let (w, ws) := split_ws s in
  if String.eqb w "" then ws else w :: ws.

(** [k in s] for strings. *)
Fixpoint str_contains (k s : string) : bool :=
  match s with
  | EmptyString => String.prefix k s
  | String _ r => String.prefix k s || str_contains k r
  end.

(** [s[:n]] *)
Definition str_slice (n : nat) (s : string) : string := substring 0 n s.

Fixpoint str_drop (n : nat) (s : string) : string :=
  match n, s with
  | O, _ => s
  | S n', String _ r => str_drop n' r
  | S _, EmptyString => EmptyString
  end.

Definition is_digit (c : ascii) : bool :=
  let n := nat_of_ascii c in Nat.leb 48 n && Nat.leb n 57.

Definition digit_value (c : ascii) : Z := Z.of_nat (nat_of_ascii c - 48).

Definition digit_char (d : Z) : ascii := ascii_of_nat (48 + Z.to_nat d).

(** Decimal digits of a non-negative integer ([str(n)]). *)
Fixpoint digits_aux (fuel : nat) (n : Z) (acc : string) : string :=
  match fuel with
  | O => acc
  | S f =>
      let acc' := String (digit_char (n mod 10)) acc in
      if (n <? 10)%Z then acc' else digits_aux f (n / 10)%Z acc'
  end.

(** [str(n)] for an integer. *)
Definition z_to_string (n : Z) : string :=
  if (n <? 0)%Z then String "-" (digits_aux (Z.to_nat (Z.log2 (- n)) + 1) (- n) "")
  else digits_aux (Z.to_nat (Z.log2 n) + 1) n "".

(** [f"{n:02d}"]: a single digit is padded with a zero. *)
Definition z_to_string2 (n : Z) : string :=
  if (0 <=? n)%Z && (n <? 10)%Z then String "0" (z_to_string n) else z_to_string n.

(** ** A JSON decoder

    The normalizer and the planner are verified for every decoder
    [json_loads : string -> option pyval] ([None] is [json.JSONDecodeError]).
    The decoder below covers the JSON subset whose string escapes are those
    of the quote, the backslash, the slash, [n] and [t], and whose numbers are
    integers; it is the decoder used to run the development on concrete
    inputs. *)

(** The double-quote character. *)
Definition dq : ascii := ascii_of_nat 34.

(** Test inputs write JSON with single quotes; [jq] turns them into double
    quotes. *)
Fixpoint jq (s : string) : string :=
  match s with
  | EmptyString => EmptyString
  | String c r => String (if Ascii.eqb c "'" then dq else c) (jq r)
  end.

Definition is_json_ws (c : ascii) : bool :=
  let n := nat_of_ascii c in
  Nat.eqb n 32 || Nat.eqb n 9 || Nat.eqb n 10 || Nat.eqb n 13.

Fixpoint json_ws (s : string) : string :=
  match s with
  | String c r => if is_json_ws c then json_ws r else s
  | EmptyString => EmptyString
  end.

Fixpoint json_digits (s : string) (acc : Z) : Z * string :=
  match s with
  | String c r => if is_digit c then json_digits r (acc * 10 + digit_value c)%Z else (acc, s)
  | EmptyString => (acc, s)
  end.

Definition json_number (s : string) : option (Z * string) :=
  match s with
  | String c _ => if is_digit c then Some (json_digits s 0) else None
  | EmptyString => None
  end.

(** The body of a string literal after its opening quote. *)
Fixpoint json_string (s : string) : option (string * string) :=
  match s with
  | EmptyString => None
  | String c r =>
      if Ascii.eqb c dq then Some ("", r)
      else if Ascii.eqb c "\" then
        match r with
        | String e r' =>
            let e' := if Ascii.eqb e "n" then Some (ascii_of_nat 10)
                      else if Ascii.eqb e "t" then Some (ascii_of_nat 9)
                      else if Ascii.eqb e dq || Ascii.eqb e "\" || Ascii.eqb e "/"
                      then Some e else None in
            match e' with
            | Some e'' =>
                match json_string r' with
                | Some (w, rest) => Some (String e'' w, rest)
                | None => None
                end
            | None => None
            end
        | EmptyString => None
        end
      else if Nat.ltb (nat_of_ascii c) 32 then None
      else
        match json_string r with
        | Some (w, rest) => Some (String c w, rest)
        | None => None
        end
  end.

Fixpoint json_value (fuel : nat) (s : string) {struct fuel} : option (pyval * string) :=
  match fuel with
  | O => None
  | S f =>
      let fix elems (g : nat) (r : string) (acc : list pyval) :=
        match g with
        | O => None
        | S g' =>
            match json_value f r with
            | Some (v, r1) =>
                match json_ws r1 with
                | String c r2 =>
                    if Ascii.eqb c "," then elems g' r2 (v :: acc)
                    else if Ascii.eqb c "]" then Some (PList (rev (v :: acc)), r2)
                    else None
                | EmptyString => None
                end
            | None => None
            end
        end in
      let fix members (g : nat) (r : string) (acc : dict) :=
        match g with
        | O => None
        | S g' =>
            match json_ws r with
            | String q r0 =>
                if Ascii.eqb q dq then
                  match json_string r0 with
                  | Some (k, r1) =>
                      match json_ws r1 with
                      | String colon r2 =>
                          if Ascii.eqb colon ":" then
                            match json_value f r2 with
                            | Some (v, r3) =>
                                match json_ws r3 with
                                | String c r4 =>
                                    if Ascii.eqb c "," then members g' r4 (dict_set acc k v)
                                    else if Ascii.eqb c "}" then Some (PDict (dict_set acc k v), r4)
                                    else None
                                | EmptyString => None
                                end
                            | None => None
                            end
                          else None
                      | EmptyString => None
                      end
                  | None => None
                  end
                else None
            | EmptyString => None
            end
        end in
      match json_ws s with
      | EmptyString => None
      | String c r =>
          if Ascii.eqb c "n" then
            if String.prefix "ull" r then Some (PNone, str_drop 3 r) else None
          else if Ascii.eqb c "t" then
            if String.prefix "rue" r then Some (PBool true, str_drop 3 r) else None
          else if Ascii.eqb c "f" then
            if String.prefix "alse" r then Some (PBool false, str_drop 4 r) else None
          else if Ascii.eqb c dq then
            match json_string r with
            | Some (w, r') => Some (PStr w, r')
            | None => None
            end
          else if Ascii.eqb c "[" then
            match json_ws r with
            | String c' r' => if Ascii.eqb c' "]" then Some (PList [], r') else elems f r []
            | EmptyString => None
            end
          else if Ascii.eqb c "{" then
            match json_ws r with
            | String c' r' => if Ascii.eqb c' "}" then Some (PDict [], r') else members f r []
            | EmptyString => None
            end
          else if Ascii.eqb c "-" then
            match json_number r with
            | Some (n, r') => Some (PInt (- n), r')
            | None => None
            end
          else
            match json_number (String c r) with
            | Some (n, r') => Some (PInt n, r')
            | None => None
            end
      end
  end.

Definition json_decode (s : string) : option pyval :=
  match json_value (S (String.length s)) s with
  | Some (v, rest) => if String.eqb (json_ws rest) "" then Some v else None
  | None => None
  end.

Example json_decode_object :
  json_decode (jq "{'distance': 1000, 'tags': [true, null], 'n': 'x'}")
  = Some (PDict [("distance", PInt 1000); ("tags", PList [PBool true; PNone]); ("n", PStr "x")]).
Proof. reflexivity. Qed.

Example json_decode_garbage : json_decode "not json" = None.
Proof. reflexivity. Qed.

(** ** The normalizer ([data/normalizer.py], class [GarminDataNormalizer]) *)

Section Normalizer.

Variable json_loads : string -> option pyval.

(** [json.loads(v)]: a non-string argument raises [TypeError]. *)
Definition loads (v : pyval) : result pyval :=
  match v with
  | PStr s => match json_loads s with Some x => Ok x | None => Exc JSONDecodeError end
  | _ => Exc TypeError
  end.

(** [_empty_activity] *)
Definition empty_activity : pyval :=
  PDict [("activity_id", PNone); ("name", PStr "Unknown"); ("date", PNone);
         ("type", PStr "running"); ("distance_km", PInt 0); ("duration_min", PInt 0);
         ("avg_pace_min_per_km", PInt 0); ("avg_speed_kmh", PInt 0); ("avg_hr", PInt 0);
         ("max_hr", PInt 0); ("calories", PInt 0); ("avg_cadence", PInt 0);
         ("training_effect", PInt 0); ("laps", PList [])].

(** Lines 36-59 of [normalize_activity]: the payload resolved to a dict
    ([Some d]), or [None] where the function returns [_empty_activity()]. *)
Definition resolve_raw (raw : pyval) : result (option dict) :=
  if negb (truthy raw) then Ok None
  else
    let step1 := match raw with
                 | PStr s => json_loads s
                 | _ => Some raw
                 end in
    match step1 with
    | None => Ok None
    | Some v =>
        match v with
        | PDict d =>
            if dict_has d "raw_text" then
              match loads (dict_get d "raw_text" PNone) with
              | Ok v2 => Ok (as_dict v2)
              | Exc JSONDecodeError => Ok None
              | Exc KeyError => Ok None
              | Exc e => Exc e
              end
            else Ok (Some d)
        | _ => Ok None
        end
    end.

(** [get_splits_safely] (nested in [normalize_activity]). *)
Definition get_splits_safely (data : pyval) : list pyval :=
  let data' := match data with
               | PStr s => json_loads s
               | _ => Some data
               end in
  match data' with
  | Some (PDict d) =>
      match dict_get d "lapDTOs" (PList []) with
      | PList l => l
      | PStr s => match json_loads s with Some (PList l) => l | _ => [] end
      | _ => []
      end
  | _ => []
  end.

(** Lines 145-159: [valid_splits]; a string split is appended as decoded,
    whatever its type. *)
Fixpoint valid_splits (splits : list pyval) : list pyval :=
  match splits with
  | [] => []
  | s :: r =>
      match s with
      | PDict _ => s :: valid_splits r
      | PStr t =>
          match json_loads t with
          | Some parsed => parsed :: valid_splits r
          | None => valid_splits r
          end
      | _ => valid_splits r
      end
  end.

(** [sum(s.get(k, 0) for s in l)] *)
Fixpoint sum_field_from (acc : pyval) (k : string) (l : list pyval) : result pyval :=
  match l with
  | [] => Ok acc
  | s :: r =>
      v <- py_get s k (PInt 0) ;;
      acc' <- py_add acc v ;;
      sum_field_from acc' k r
  end.

Definition sum_field (k : string) (l : list pyval) : result pyval :=
  sum_field_from (PInt 0) k l.

(** [_format_pace] *)
Definition format_pace (p : pyval) : result string :=
  c <- py_le0 p ;;
  if c then Ok "N/A"
  else
    match py_number p with
    | Some n =>
        minutes <- py_int n ;;
        d <- py_sub p (PInt minutes) ;;
        e <- py_mul d (PInt 60) ;;
        match py_number e with
        | Some n' =>
            seconds <- py_int n' ;;
            Ok (z_to_string minutes ++ ":" ++ z_to_string2 seconds)
        | None => Exc TypeError
        end
    | None => Exc TypeError
    end.

(** The body of the loop of [_normalize_laps] for a lap that is a dict. *)
Definition normalize_lap (i : nat) (lap : dict) : result pyval :=
  let distance_m := dict_get lap "distance" (PInt 0) in
  let duration_s := dict_get lap "duration" (PInt 0) in
  distance_km <- py_div distance_m (PInt 1000) ;;
  duration_min <- py_div duration_s (PInt 60) ;;
  let fields :=
    [("lap_number", PInt (Z.of_nat i)); ("distance_km", distance_km);
     ("distance_m", distance_m); ("duration_min", duration_min); ("duration_s", duration_s);
     ("avg_hr", dict_get lap "averageHR" (PInt 0)); ("max_hr", dict_get lap "maxHR" (PInt 0));
     ("avg_cadence", dict_get lap "averageRunCadence" (PInt 0));
     ("max_cadence", dict_get lap "maxRunCadence" (PInt 0));
     ("elevation_gain", dict_get lap "elevationGain" (PInt 0));
     ("elevation_loss", dict_get lap "elevationLoss" (PInt 0))] in
  c1 <- py_gt0 distance_m ;;
  c2 <- (if c1 then py_gt0 duration_s else Ok false) ;;
  if c1 && c2 then
    a <- py_div duration_s (PInt 60) ;;
    b <- py_div distance_m (PInt 1000) ;;
    pace <- py_div a b ;;
    formatted <- format_pace pace ;;
    Ok (PDict (fields ++ [("pace_min_per_km", pace); ("pace_formatted", PStr formatted)]))
  else
    Ok (PDict (fields ++ [("pace_min_per_km", PInt 0); ("pace_formatted", PStr "N/A")])).

(** [_normalize_laps], with [i] the index of [enumerate(lap_dtos, 1)]. *)
Fixpoint normalize_laps_from (i : nat) (laps : list pyval) : result (list pyval) :=
  match laps with
  | [] => Ok []
  | lap :: r =>
      let lap' := match lap with
                  | PStr s => json_loads s
                  | _ => Some lap
                  end in
      match lap' with
      | Some (PDict d) =>
          nl <- normalize_lap i d ;;
          rest <- normalize_laps_from (S i) r ;;
          Ok (nl :: rest)
      | _ => normalize_laps_from (S i) r
      end
  end.

Definition normalize_laps (laps : list pyval) : result (list pyval) :=
  normalize_laps_from 1 laps.

(** Distance, duration and laps of [normalize_activity] (lines 140-175). *)
Definition activity_totals (distance duration : pyval) (splits : list pyval)
  : result (pyval * pyval * list pyval) :=
  if py_eqz distance || py_eqz duration then
    let valid := valid_splits splits in
    match valid with
    | [] => Ok (PInt 0, PInt 0, [])
    | _ =>
        ds <- sum_field "distance" valid ;;
        dk <- py_div ds (PInt 1000) ;;
        ts <- sum_field "duration" valid ;;
        dm <- py_div ts (PInt 60) ;;
        laps <- normalize_laps valid ;;
        Ok (dk, dm, laps)
    end
  else
    dk <- py_div distance (PInt 1000) ;;
    dm <- py_div duration (PInt 60) ;;
    laps <- (match splits with [] => Ok [] | _ => normalize_laps splits end) ;;
    Ok (dk, dm, laps).

(** Derived pace and speed (lines 178-183). *)
Definition derived_metrics (dk dm : pyval) : result (pyval * pyval) :=
  c1 <- py_gt0 dk ;;
  c2 <- (if c1 then py_gt0 dm else Ok false) ;;
  if c1 && c2 then
    pace <- py_div dm dk ;;
    hours <- py_div dm (PInt 60) ;;
    speed <- py_div dk hours ;;
    Ok (pace, speed)
  else Ok (PInt 0, PInt 0).

(** The splits [normalize_activity] reads (lines 130-136). *)
Definition activity_splits (d : dict) : list pyval :=
  let splits_data := dict_get d "splits_data" (PDict []) in
  if truthy splits_data then get_splits_safely splits_data
  else get_splits_safely (PDict d).

(** The summary block (lines 77-80). *)
Definition activity_summary (d : dict) : dict :=
  match dict_get d "summaryDTO" (PDict []) with
  | PDict s => s
  | _ => []
  end.

(** [normalize_activity] from line 61 on, for a payload resolved to a dict. *)
Definition normalize_dict (d : dict) : result pyval :=
  let activity_type :=
    match dict_get d "activityTypeDTO" (PDict []) with
    | PDict t => dict_get t "typeKey" (PStr "running")
    | _ => PStr "running"
    end in
  let summary := activity_summary d in
  let distance := dict_get summary "distance" (PInt 0) in
  let duration := dict_get summary "duration" (PInt 0) in
  let splits := activity_splits d in
  t <- activity_totals distance duration splits ;;
  let '(dk, dm, laps) := t in
  pm <- derived_metrics dk dm ;;
  let '(pace, speed) := pm in
  Ok (PDict
    [("activity_id", dict_get d "activityId" PNone);
     ("name", dict_get d "activityName" (PStr "Unnamed Run"));
     ("date", dict_get d "startTimeGMT" PNone);
     ("type", activity_type);
     ("description", dict_get d "description" (PStr ""));
     ("distance_km", dk); ("duration_min", dm); ("laps", PList laps);
     ("avg_pace_min_per_km", pace); ("avg_speed_kmh", speed);
     ("avg_hr", dict_get summary "averageHR" (PInt 0));
     ("max_hr", dict_get summary "maxHR" (PInt 0));
     ("min_hr", dict_get summary "minHR" (PInt 0));
     ("calories", dict_get summary "calories" (PInt 0));
     ("avg_cadence", dict_get summary "averageRunCadence" (PInt 0));
     ("max_cadence", dict_get summary "maxRunCadence" (PInt 0));
     ("avg_power", dict_get summary "averagePower" (PInt 0));
     ("max_power", dict_get summary "maxPower" (PInt 0));
     ("training_effect", dict_get summary "trainingEffect" (PInt 0));
     ("anaerobic_training_effect", dict_get summary "anaerobicTrainingEffect" (PInt 0));
     ("avg_speed_ms", dict_get summary "averageSpeed" (PInt 0));
     ("max_speed_ms", dict_get summary "maxSpeed" (PInt 0))]).

(** [normalize_activity] *)
Definition normalize_activity (raw : pyval) : result pyval :=
  r <- resolve_raw raw ;;
  match r with
  | Some d => normalize_dict d
  | None => Ok empty_activity
  end.

End Normalizer.

(** [for x in v]: the items of an iterable (a dict yields its keys, a
    string its characters). *)
Definition py_iter (v : pyval) : result (list pyval) :=
  match v with
  | PList l => Ok l
  | PDict d => Ok (map (fun kv => PStr (fst kv)) d)
  | PStr s => Ok (map (fun c => PStr (String c EmptyString)) (list_ascii_of_string s))
  | _ => Exc TypeError
  end.

(** The loop of [normalize_hr_zones]: the zones built and the running total. *)
Fixpoint hr_zone_loop (zones : list dict) (total : pyval) (l : list pyval)
  : result (list dict * pyval) :=
  match l with
  | [] => Ok (zones, total)
  | zone_data :: r =>
      zone_num <- py_get zone_data "zoneNumber" (PInt 0) ;;
      time_in_zone <- py_get zone_data "secsInZone" (PInt 0) ;;
      low_boundary <- py_get zone_data "zoneLowBoundary" (PInt 0) ;;
      minutes <- py_div time_in_zone (PInt 60) ;;
      let zone := [("zone_number", zone_num); ("time_seconds", time_in_zone);
                   ("time_minutes", minutes); ("low_boundary_bpm", low_boundary);
                   ("percentage", PInt 0)] in
      total' <- py_add total time_in_zone ;;
      hr_zone_loop ((zones ++ [zone])%list) total' r
  end.

(** [zone["percentage"] = (zone["time_seconds"] / total_time) * 100] *)
Fixpoint set_percentages (total : pyval) (zones : list dict) : result (list dict) :=
  match zones with
  | [] => Ok []
  | z :: r =>
      p <- py_div (dict_get z "time_seconds" PNone) total ;;
      p' <- py_mul p (PInt 100) ;;
      rest <- set_percentages total r ;;
      Ok (dict_set z "percentage" p' :: rest)
  end.

(** [normalize_hr_zones] *)
Definition normalize_hr_zones (raw_zones : pyval) : result pyval :=
  if negb (truthy raw_zones) then
    Ok (PDict [("zones", PList []); ("total_time_s", PInt 0);
               ("has_complete_data", PBool false)])
  else
    items <- py_iter raw_zones ;;
    zt <- hr_zone_loop [] (PInt 0) items ;;
    let '(zones, total) := zt in
    pos <- py_gt0 total ;;
    zones' <- (if pos then set_percentages total zones else Ok zones) ;;
    total_min <- py_div total (PInt 60) ;;
    Ok (PDict [("zones", PList (map PDict zones')); ("total_time_s", total);
               ("total_time_min", total_min);
               ("has_complete_data", PBool (Nat.leb 5 (length zones')))]).

(** [v is not None] *)
Definition is_none (v : pyval) : bool :=
  match v with PNone => true | _ => false end.

(** [((t or 0) - 32) * 5/9 if t is not None else None] *)
Definition to_celsius (t : pyval) : result pyval :=
  if is_none t then Ok PNone
  else
    let t0 := if truthy t then t else PInt 0 in
    a <- py_sub t0 (PInt 32) ;;
    b <- py_mul a (PInt 5) ;;
    py_div b (PInt 9).

(** [normalize_weather] *)
Definition normalize_weather (raw_weather : pyval) : result pyval :=
  if negb (truthy raw_weather) then Ok (PDict [("available", PBool false)])
  else
    temp <- py_get raw_weather "temp" PNone ;;
    temp_c <- to_celsius temp ;;
    apparent <- py_get raw_weather "apparentTemp" PNone ;;
    apparent_c <- to_celsius apparent ;;
    humidity <- py_get raw_weather "relativeHumidity" PNone ;;
    wind <- py_get raw_weather "windSpeed" PNone ;;
    wind_dir <- py_get raw_weather "windDirectionCompassPoint" (PStr "N/A") ;;
    dew <- py_get raw_weather "dewPoint" PNone ;;
    wt <- py_get raw_weather "weatherTypeDTO" PNone ;;
    condition <- (if truthy wt then
                    wt' <- py_get raw_weather "weatherTypeDTO" (PDict []) ;;
                    py_get wt' "desc" (PStr "Unknown")
                  else Ok PNone) ;;
    Ok (PDict [("available", PBool true); ("temp_f", temp); ("temp_c", temp_c);
               ("apparent_temp_f", apparent); ("apparent_temp_c", apparent_c);
               ("humidity", humidity); ("wind_speed_mph", wind);
               ("wind_direction", wind_dir); ("dew_point_f", dew);
               ("condition", condition)]).

(** ** The intent planner ([agents/coach_qa.py], class [CoachQAAgent]) *)

Definition action_answer := "answer".
Definition action_ask := "ask_clarifying".
Definition action_decline := "decline_non_running".

Definition valid_actions : list string := [action_answer; action_ask; action_decline].

(** [coachable_terms] of [_plan_action] *)
Definition coachable_terms : list string :=
  ["easy pace"; "tempo pace"; "threshold pace"; "expected time"; "race time";
   "5k"; "10k"; "half"; "half marathon"; "marathon"; "training load";
   "recommend my next run"; "next run"].

(** [followup_starters] of [_detect_follow_up] *)
Definition followup_starters : list string :=
  ["and"; "also"; "what about"; "how about"; "then"; "so"; "now"; "ok"; "okay"; "sure"].

Definition followup_tokens : list string :=
  ["that"; "it"; "this"; "those"; "same"; "instead"].

(** [keywords] of the running-context rule of [_plan_action] *)
Definition context_keywords : list string :=
  ["vo2"; "v02"; "tag"; "tagged"; "training effect"; "heart rate"; "hr";
   "pace"; "split"; "cadence"; "garmin"; "run"; "workout"; "activity"; "zone"].

(** [any(term in s for term in terms)] *)
Definition any_in (terms : list string) (s : string) : bool :=
  existsb (fun t => str_contains t s) terms.

Definition is_coachable (question : string) : bool :=
  any_in coachable_terms (py_lower question).

(** [context.get(k)], truthiness. *)
Definition ctx_has (c : dict) (k : string) : bool := truthy (dict_get c k PNone).

(** [bool(context.get("last_intent") or context.get("last_analysis_text") or context.get("summary"))] *)
Definition has_running_context (c : dict) : bool :=
  ctx_has c "last_intent" || ctx_has c "last_analysis_text" || ctx_has c "summary".

(** [if context:] for [context : Optional[Dict]] *)
Definition ctx_truthy (context : option dict) : option dict :=
  match context with
  | Some ((_ :: _) as c) => Some c
  | _ => None
  end.

(** [_detect_follow_up] *)
Definition detect_follow_up (question : string) (context : option dict) : bool :=
  match ctx_truthy context with
  | None => false
  | Some c =>
      match dict_get c "recent_messages" PNone with
      | PList (_ :: _) =>
          let lower_q := py_strip (py_lower question) in
          if existsb (fun st => String.prefix st lower_q) followup_starters then true
          else if Nat.leb (length (py_split lower_q)) 6 then true
          else if any_in followup_tokens lower_q then true
          else if ctx_has c "last_intent" || ctx_has c "summary" || ctx_has c "last_analysis_text"
          then Nat.leb (length (py_split lower_q)) 10
          else false
      | _ => false
      end
  end.

(** [v[:400]]: only sequences can be sliced. *)
Definition slice_check (v : pyval) : result unit :=
  match v with
  | PStr _ | PList _ => Ok tt
  | _ => Exc TypeError
  end.

(** Lines 224-240: the context hint of the prompt; it can only fail. *)
Definition context_hint_check (c : dict) : result unit :=
  _ <- (if ctx_has c "summary" then slice_check (dict_get c "summary" PNone) else Ok tt) ;;
  (if ctx_has c "last_analysis_text"
   then slice_check (dict_get c "last_analysis_text" PNone) else Ok tt).

Record plan := mk_plan {
  plan_action_of : string;
  plan_reason : string;
  plan_needs_user_info : list pyval
}.

Section Planner.

Variable json_loads : string -> option pyval.

(** Lines 254-258: the model's reply decoded ([{}] when it is no JSON text). *)
Definition reply_plan (response : pyval) : pyval :=
  let content := match response with
                 | PDict d => dict_get d "content" PNone
                 | _ => response
                 end in
  match content with
  | PStr s => match json_loads s with Some v => v | None => PDict [] end
  | _ => PDict []
  end.

(** Lines 254-270: the base classification, its needs and its reason. *)
Definition parse_plan (response : pyval) : result (string * list pyval * string) :=
  let p := reply_plan response in
  action0 <- py_get p "action" PNone ;;
  let action := match action0 with
                | PStr a => if existsb (String.eqb a) valid_actions then a else action_answer
                | _ => action_answer
                end in
  needs0 <- py_get p "needs_user_info" PNone ;;
  let needs := match needs0 with PList l => l | _ => [] end in
  reason0 <- py_get p "reason" PNone ;;
  let reason := match reason0 with PStr r => r | _ => "Defaulted to answer." end in
  Ok (action, needs, reason).

(** Lines 287-289 and 282-285: the running-context rules. *)
Definition running_context_rules (question : string) (c : dict) (ar : string * string)
  : string * string :=
  if has_running_context c then
    let lower_q := py_lower question in
    let ar1 := if any_in context_keywords lower_q
               then (action_answer, "Context indicates running follow-up.") else ar in
    if Nat.leb (String.length (py_strip lower_q)) 3
    then (action_answer, "Short follow-up with context.") else ar1
  else ar.

(** [x or {}] *)
Definition or_empty (v : pyval) : pyval := if truthy v then v else PDict [].

(** Lines 291-299: the profile rule. *)
Definition profile_rule (question : string) (c : dict) (ar : string * string)
  : result (string * string) :=
  match dict_get c "persona_profile" PNone with
  | PDict pp =>
      let runner_profile := or_empty (dict_get pp "runner_profile" PNone) in
      let runner_history := or_empty (dict_get pp "runner_history" PNone) in
      prof <- py_get runner_profile "proficiency" PNone ;;
      score <- (if truthy prof then Ok prof else py_get runner_profile "score" PNone) ;;
      hist <- py_get runner_history "summary" PNone ;;
      let has_profile := truthy prof || truthy score in
      let has_history := truthy hist in
      if is_coachable question && (has_profile || has_history)
      then Ok (action_answer, "Coachable question with profile/history available.")
      else Ok ar
  | _ => Ok ar
  end.

(** Lines 272-299: the rules that read the context. *)
Definition context_rules (question : string) (context : option dict) (ar : string * string)
  : result (string * string) :=
  match ctx_truthy context with
  | None => Ok ar
  | Some c =>
      let ar1 := if detect_follow_up question context && negb (String.eqb (fst ar) action_decline)
                 then (action_answer, "Follow-up question with context.") else ar in
      let ar2 := running_context_rules question c ar1 in
      profile_rule question c ar2
  end.

(** [_plan_action], for the model reply [response] of the planner call. *)
Definition plan_action (question : string) (context : option dict) (response : pyval)
  : result plan :=
  _ <- (match ctx_truthy context with Some c => context_hint_check c | None => Ok tt end) ;;
  p <- parse_plan response ;;
  let '(action, needs, reason) := p in
  ar <- context_rules question context (action, reason) ;;
  let '(a, r) := ar in
  let '(a', r') := if is_coachable question && negb (String.eqb a action_decline)
                   then (action_answer, "Coachable question: answer best-effort.")
                   else (a, r) in
  Ok (mk_plan a' (str_slice 200 r') (firstn 5 needs)).

End Planner.

(** ** The MCP client's activity listing ([mcp/garmin_client_v2.py]) *)

Fixpoint take_while (p : ascii -> bool) (s : string) : string * string :=
  match s with
  | String c r =>
      if p c then let (w, rest) := take_while p r in (String c w, rest) else ("", s)
  | EmptyString => ("", "")
  end.

Definition is_word (c : ascii) : bool :=
  let n := nat_of_ascii c in
  is_digit c || (Nat.leb 65 n && Nat.leb n 90) || (Nat.leb 97 n && Nat.leb n 122) || Nat.eqb n 95.

(** [---\s*Activity\s+\d+\s*---] matched at the start of [s]: the text after
    the match. *)
Definition match_separator (s : string) : option string :=
  if String.prefix "---" s then
    let s1 := lstrip (str_drop 3 s) in
    if String.prefix "Activity" s1 then
      let s2 := str_drop 8 s1 in
      match s2 with
      | String c _ =>
          if is_space c then
            let (num, s3) := take_while is_digit (lstrip s2) in
            if String.eqb num "" then None
            else
              let s4 := lstrip s3 in
              if String.prefix "---" s4 then Some (str_drop 3 s4) else None
          else None
      | EmptyString => None
      end
    else None
  else None.

Fixpoint split_sections_aux (fuel : nat) (s : string) (cur : list ascii) : list string :=
  match fuel with
  | O => [string_of_list_ascii (rev cur)]
  | S f =>
      match match_separator s with
      | Some rest => string_of_list_ascii (rev cur) :: split_sections_aux f rest []
      | None =>
          match s with
          | EmptyString => [string_of_list_ascii (rev cur)]
          | String c r => split_sections_aux f r (c :: cur)
          end
      end
  end.

(** [re.split(r'---\s*Activity\s+\d+\s*---', content_text)] *)
Definition split_sections (s : string) : list string :=
  split_sections_aux (S (String.length s)) s [].

(** [re.search(tag ++ r':\s*(class+)', s).group(1)] *)
Fixpoint search_field (tag : string) (cls : ascii -> bool) (s : string) : option string :=
  let here :=
    if String.prefix tag s then
      let (w, _) := take_while cls (lstrip (str_drop (String.length tag) s)) in
      if String.eqb w "" then None else Some w
    else None in
  match here with
  | Some w => Some w
  | None =>
      match s with
      | String _ r => search_field tag cls r
      | EmptyString => None
      end
  end.

(** [re.search(r'Type:\s*(\w+)', section)] *)
Definition section_type (section : string) : option string := search_field "Type:" is_word section.

(** [re.search(r'ID:\s*(\d+)', section)] *)
Definition section_id (section : string) : option string := search_field "ID:" is_digit section.

(** The activity ids of the listing text whose section has the requested type. *)
Definition listed_ids (activity_type : string) (content_text : string) : list string :=
  flat_map (fun section =>
              if String.eqb (py_strip section) "" then []
              else match section_type section, section_id section with
                   | Some t, Some i => if String.eqb t activity_type then [i] else []
                   | _, _ => []
                   end)
           (split_sections content_text).

(** ** Upstream calls and the gathering orchestrator ([agents/base_agent.py]) *)

Inductive mcp_call : Type :=
| ListActivities (activity_type : string) (limit : Z)
| GetActivityDetails (activity_id : pyval)
| GetActivitySplits (activity_id : pyval)
| GetActivityHrZones (activity_id : pyval)
| GetActivityWeather (activity_id : pyval).

(** A computation issuing upstream calls: the calls made so far are the log. *)
Definition M (A : Type) : Type := list mcp_call -> result A * list mcp_call.

Definition mret {A} (a : A) : M A := fun log => (Ok a, log).

Definition mbind {A B} (m : M A) (k : A -> M B) : M B :=
  fun log => match m log with
             | (Ok a, log') => k a log'
             | (Exc e, log') => (Exc e, log')
             end.

Notation "x <-- m ;;; k" := (mbind m (fun x => k))
  (at level 61, m at next level, right associativity).

(** [str(e)] *)
Definition exn_message (e : exn) : string :=
  match e with
  | JSONDecodeError => "JSONDecodeError"
  | TypeError => "TypeError"
  | AttributeError => "AttributeError"
  | KeyError => "KeyError"
  | ZeroDivisionError => "ZeroDivisionError"
  | UpstreamError => "UpstreamError"
  | OverflowError => "OverflowError"
  | ValueError => "ValueError"
  end.

Section Gather.

Variable json_loads : string -> option pyval.

(** The upstream: the value the client method returns for a call, given the
    calls made before it; for [ListActivities] a string is the text of the
    tool's first content item and any other value means no content. *)
Variable tool : mcp_call -> list mcp_call -> result pyval.

Definition mcall (c : mcp_call) : M pyval := fun log => (tool c log, (log ++ [c])%list).

(** [get_activities] of the client. *)
Definition get_activities (activity_type : string) (limit : Z) : M (list pyval) :=
  r <-- mcall (ListActivities activity_type limit) ;;;
  match r with
  | PStr text => mret (map (fun i => PDict [("activityId", PStr i)]) (listed_ids activity_type text))
  | _ => mret []
  end.

(** [_normalize_activity_data]: the activity data after the in-place update
    of its [raw_activity] dict, and the normalized record ([None] on an
    exception). *)
Definition normalize_activity_data (ad : dict) : dict * pyval :=
  let raw_activity := dict_get ad "raw_activity" (PDict []) in
  let raw_splits := dict_get ad "raw_splits" (PDict []) in
  let prepared :=
    if truthy raw_splits then
      match raw_activity with
      | PDict ra =>
          let ra' := PDict (dict_set ra "splits_data" raw_splits) in
          Some (if dict_has ad "raw_activity" then dict_set ad "raw_activity" ra' else ad, ra')
      | _ => None
      end
    else Some (ad, raw_activity) in
  match prepared with
  | None => (ad, PNone)
  | Some (ad', ra) =>
      let out :=
        na <- normalize_activity json_loads ra ;;
        nh <- normalize_hr_zones (dict_get ad' "raw_hr_zones" (PList [])) ;;
        nw <- normalize_weather (dict_get ad' "raw_weather" (PDict [])) ;;
        Ok (PDict [("activity", na); ("hr_zones", nh); ("weather", nw)]) in
      match out with
      | Ok v => (ad', v)
      | Exc _ => (ad', PNone)
      end
  end.

(** [activity_data["normalized"] = self._normalize_activity_data(activity_data)] *)
Definition renormalize (ad : dict) : dict :=
  let (ad', n) := normalize_activity_data ad in dict_set ad' "normalized" n.

(** One fetch of the [try] block of [_gather_single_activity_data]: on an
    exception the block ends with the [error] key set. *)
Definition fetch_into (c : mcp_call) (key : string) (ad : dict) (k : dict -> M dict) : M dict :=
  fun log =>
    match tool c log with
    | Ok v => k (dict_set ad key v) ((log ++ [c])%list)
    | Exc e => (Ok (dict_set ad "error" (PStr (exn_message e))), (log ++ [c])%list)
    end.

(** [_gather_single_activity_data] *)
Definition gather_single_activity_data (aid : pyval) : M dict :=
  let ad0 := [("activity_id", aid); ("raw_activity", PNone); ("raw_splits", PNone);
              ("raw_hr_zones", PNone); ("raw_weather", PNone); ("normalized", PNone)] in
  fetch_into (GetActivityDetails aid) "raw_activity" ad0 (fun ad1 =>
  fetch_into (GetActivitySplits aid) "raw_splits" ad1 (fun ad2 =>
  fetch_into (GetActivityHrZones aid) "raw_hr_zones" ad2 (fun ad3 =>
  fetch_into (GetActivityWeather aid) "raw_weather" ad3 (fun ad4 =>
  mret (renormalize ad4))))).

(** [_is_data_incomplete] *)
Definition is_data_incomplete (ad : dict) : result bool :=
  if dict_has ad "error" then Ok true
  else
    let normalized := dict_get ad "normalized" (PDict []) in
    if negb (truthy normalized) then Ok true
    else
      activity <- py_get normalized "activity" (PDict []) ;;
      distance <- py_get activity "distance_km" (PInt 0) ;;
      if py_eqz distance then Ok true
      else
        duration <- py_get activity "duration_min" (PInt 0) ;;
        if py_eqz duration then Ok true
        else
          laps <- py_get activity "laps" PNone ;;
          Ok (negb (truthy laps)).

(** [_correct_incomplete_data] *)
Definition correct_incomplete_data (aid : pyval) (ad : dict) : M dict :=
  if negb (truthy (dict_get ad "raw_splits" PNone)) then
    fun log =>
      let c := GetActivitySplits aid in
      match tool c log with
      | Ok v => (Ok (renormalize (dict_set ad "raw_splits" v)), (log ++ [c])%list)
      | Exc _ => (Ok ad, (log ++ [c])%list)
      end
  else mret ad.

(** Lines 104-109: one activity of the loop of [gather_data]. *)
Definition process_activity (aid : pyval) : M dict :=
  ad <-- gather_single_activity_data aid ;;;
  fun log =>
    match is_data_incomplete ad with
    | Ok true => correct_incomplete_data aid ad log
    | Ok false => (Ok ad, log)
    | Exc e => (Exc e, log)
    end.

(** The loop of [gather_data]: the activities gathered, and the exception
    that ended it, if any. *)
Fixpoint gather_loop (num processed : Z) (acts : list pyval) (items : list pyval)
  : M (list pyval * option exn) :=
  match items with
  | [] => mret (acts, None)
  | item :: r =>
      if (num <=? processed)%Z then mret (acts, None)
      else
        match py_get item "activityId" PNone with
        | Exc e => mret (acts, Some e)
        | Ok aid =>
            if negb (truthy aid) then gather_loop num processed acts r
            else
              fun log =>
                match process_activity aid log with
                | (Ok ad, log') => gather_loop num (processed + 1) ((acts ++ [PDict ad])%list) r log'
                | (Exc e, log') => (Ok (acts, Some e), log')
                end
        end
  end.

(** [gather_data(user_request, num_activities)] of an agent with scope [scope]. *)
Definition gather_data (user_request scope : string) (num : Z) : M dict :=
  let gathered := [("activities", PList []); ("request", PStr user_request); ("scope", PStr scope)] in
  fun log =>
    match get_activities "running" (num * 5) log with
    | (Exc e, log1) => (Ok (dict_set gathered "error" (PStr (exn_message e))), log1)
    | (Ok [], log1) => (Ok gathered, log1)
    | (Ok items, log1) =>
        match gather_loop num 0 [] items log1 with
        | (Ok (acts, None), log2) => (Ok (dict_set gathered "activities" (PList acts)), log2)
        | (Ok (acts, Some e), log2) =>
            (Ok (dict_set (dict_set gathered "activities" (PList acts)) "error"
                          (PStr (exn_message e))), log2)
        | (Exc e, log2) => (Ok (dict_set gathered "error" (PStr (exn_message e))), log2)
        end
    end.

End Gather.

(** ** Per-user client state of the MCP client ([mcp/garmin_client_v2.py]) *)

Definition is_upper (c : ascii) : bool :=
  let n := nat_of_ascii c in Nat.leb 65 n && Nat.leb n 90.

Definition is_lower (c : ascii) : bool :=
  let n := nat_of_ascii c in Nat.leb 97 n && Nat.leb n 122.

Definition ascii_upper (c : ascii) : ascii :=
  if is_lower c then ascii_of_nat (nat_of_ascii c - 32) else c.

(** *** User ids and token paths

    A Python [str] here is the list of its code points. *)

Definition ustr := list Z.

(** The code points of an ASCII literal. *)
Fixpoint cps (s : string) : ustr :=
  match s with
  | EmptyString => []
  | String c r => Z.of_nat (nat_of_ascii c) :: cps r
  end.

Definition ustr_eqb (s t : ustr) : bool :=
  if list_eq_dec Z.eq_dec s t then true else false.

(** [s.startswith(p)] *)
Definition ustr_prefix (p s : ustr) : bool := ustr_eqb p (firstn (length p) s).

(** [ch.isalnum()] on an ASCII code point: the letters and digits. *)
Definition ascii_isalnum (c : Z) : bool :=
  (((48 <=? c) && (c <=? 57)) || ((65 <=? c) && (c <=? 90)) || ((97 <=? c) && (c <=? 122)))%Z.

Section TokenStore.

(** [ch.isalnum()] on a code point from 128 on, as given by the Unicode
    database (letters and numerals). *)
Variable unicode_isalnum : Z -> bool.

(** [ch.isalnum()] *)
Definition is_alnum (c : Z) : bool :=
  if (c <? 128)%Z then ascii_isalnum c else unicode_isalnum c.

(** [ch.isalnum() or ch in ("-", "_")] *)
Definition safe_char (c : Z) : bool :=
  is_alnum c || Z.eqb c 45%Z || Z.eqb c 95%Z.

(** [_sanitize_user_id] *)
Definition sanitize_user_id (user_id : ustr) : ustr :=
  match user_id with
  | [] => cps "unknown"
  | _ =>
      match filter safe_char user_id with
      | [] => cps "unknown"
      | s => s
      end
  end.

(** [s.split(c)] *)
Fixpoint split_on (c : Z) (s : ustr) : list ustr :=
  match s with
  | [] => [[]]
  | d :: r =>
      let rest := split_on c r in
      if Z.eqb d c then [] :: rest
      else match rest with
           | w :: ws => (d :: w) :: ws
           | [] => [[d]]
           end
  end.

(** The parts [PurePosixPath] keeps of the components of a path: empty
    components and [.] are dropped. *)
Definition path_parts (s : ustr) : list ustr :=
  filter (fun p => negb (ustr_eqb p []) && negb (ustr_eqb p (cps "."))) (split_on 47%Z s).

(** [p / s] on POSIX paths, a path being the tuple of its [parts]: an
    absolute [s] replaces [p], with its root [/] (or [//], which POSIX keeps
    apart) as first part. *)
Definition path_join (p : list ustr) (s : ustr) : list ustr :=
  if ustr_prefix (cps "//") s && negb (ustr_prefix (cps "///") s) then cps "//" :: path_parts s
  else if ustr_prefix (cps "/") s then cps "/" :: path_parts s
  else p ++ path_parts s.

(** [_get_user_token_paths], with [tmpdir] the parts of
    [Path(tempfile.gettempdir())]. *)
Definition user_token_paths (tmpdir : list ustr) (user_id : ustr)
  : list ustr * list ustr :=
  let safe_user_id := sanitize_user_id user_id in
  let base_dir := path_join (path_join tmpdir (cps "pace42-garmin")) safe_user_id in
  let token_dir := path_join base_dir (cps "tokens") in
  let base64_path := path_join base_dir (cps ".garminconnect_base64") in
  (token_dir, base64_path).

(** A file system: its entries, each a path (its parts) and whether it is a
    directory. *)
Definition fs := list (list ustr * bool).

Definition path_eqb (p q : list ustr) : bool :=
  if list_eq_dec (list_eq_dec Z.eq_dec) p q then true else false.

(** [p.exists()], and [p.is_dir()] when it exists. *)
Definition fs_lookup (f : fs) (p : list ustr) : option bool :=
  option_map snd (find (fun e => path_eqb (fst e) p) f).

Definition fs_remove (f : fs) (p : list ustr) : fs :=
  filter (fun e => negb (path_eqb (fst e) p)) f.

(** [p] is an entry of the directory [dir] ([dir.glob("*")]). *)
Definition is_child (dir p : list ustr) : bool :=
  Nat.eqb (length p) (S (length dir)) && path_eqb (firstn (length dir) p) dir.

(** [p] is below [dir]. *)
Definition is_below (dir p : list ustr) : bool :=
  Nat.ltb (length dir) (length p) && path_eqb (firstn (length dir) p) dir.

(** Lines 343-352: [file.unlink()] on each entry of the token directory (it
    fails on a directory, and the failure is ignored), then
    [token_dir.rmdir()] (it fails unless the token directory is an empty
    directory, and the failure is ignored). *)
Definition clear_token_dir (token_dir : list ustr) (f : fs) : fs :=
  match fs_lookup f token_dir with
  | None => f
  | Some is_dir =>
      let f1 := filter (fun e => negb (is_child token_dir (fst e) && negb (snd e))) f in
      if is_dir && negb (existsb (fun e => is_below token_dir (fst e)) f1)
      then fs_remove f1 token_dir else f1
  end.

(** [clear_token_store_for_user]: the file system after the call.
    [base64_path.unlink()] on a directory raises, which ends the [try]
    block. *)
Definition clear_token_store_for_user (tmpdir : list ustr) (user_id : ustr) (f : fs) : fs :=
  let '(token_dir, base64_path) := user_token_paths tmpdir user_id in
  match fs_lookup f base64_path with
  | Some true => f
  | Some false => clear_token_dir token_dir (fs_remove f base64_path)
  | None => clear_token_dir token_dir f
  end.

End TokenStore.

(** A [UserScopedGarminClient] object: its [user_id], and a serial number
    that stands for the identity of the object. *)
Record garmin_client := mk_client {
  client_user : string;
  client_serial : nat
}.

(** The module's [_user_clients] dict, and the serial number the next
    object created gets. *)
Record client_cache := mk_cache {
  user_clients : list (string * garmin_client);
  next_serial : nat
}.

(** [_user_clients.get(k)] *)
Fixpoint clients_lookup (l : list (string * garmin_client)) (k : string) : option garmin_client :=
  match l with
  | [] => None
  | (k', c) :: r => if String.eqb k k' then Some c else clients_lookup r k
  end.

(** [del _user_clients[k]] *)
Definition clients_delete (l : list (string * garmin_client)) (k : string)
  : list (string * garmin_client) :=
  filter (fun kv => negb (String.eqb (fst kv) k)) l.

(** [get_client_for_user]: the client and the new cache.  [configured] says
    whether the Garmin MCP server paths are configured; when they are not the
    constructor raises [ValueError] ([None]) and nothing is cached. *)
Definition get_client_for_user (configured : bool) (st : client_cache) (user_id : string)
  : option (garmin_client * client_cache) :=
  match clients_lookup (user_clients st) user_id with
  | Some c => Some (c, st)
  | None =>
      if configured then
        let c := mk_client user_id (next_serial st) in
        Some (c, mk_cache ((user_clients st ++ [(user_id, c)])%list) (S (next_serial st)))
      else None
  end.

(** [clear_client_for_user] *)
Definition clear_client_for_user (st : client_cache) (user_id : string) : client_cache :=
  match clients_lookup (user_clients st) user_id with
  | Some _ => mk_cache (clients_delete (user_clients st) user_id) (next_serial st)
  | None => st
  end.

(** ** The recent turns of the prompt ([agents/coach_qa.py]) *)

(** [s.title()], the ASCII letters being the cased characters. *)
Fixpoint title_from (prev_cased : bool) (s : string) : string :=
  match s with
  | EmptyString => EmptyString
  | String c r =>
      if is_upper c then String (if prev_cased then ascii_lower c else c) (title_from true r)
      else if is_lower c then String (if prev_cased then c else ascii_upper c) (title_from true r)
      else String c (title_from false r)
  end.

Definition py_title (s : string) : string := title_from false s.

(** [v.title()]: only strings have the method. *)
Definition py_title_of (v : pyval) : result string :=
  match v with
  | PStr s => Ok (py_title s)
  | _ => Exc AttributeError
  end.

(** [l[-n:]] *)
Definition last_n {A} (n : nat) (l : list A) : list A := skipn (length l - n) l.

Section RecentTurns.

(** [str(v)] of a number, a list or a dict. *)
Variable repr : pyval -> string.

(** [str(v)] *)
Definition py_str (v : pyval) : string :=
  match v with
  | PStr s => s
  | PNone => "None"
  | PBool true => "True"
  | PBool false => "False"
  | _ => repr v
  end.

(** The loop of [_format_recent_turns]. *)
Fixpoint recent_turn_lines (msgs : list pyval) : result (list string) :=
  match msgs with
  | [] => Ok []
  | msg :: r =>
      role <- py_get msg "role" (PStr "user") ;;
      content0 <- py_get msg "content" (PStr "") ;;
      let content := str_slice 220 (py_str content0) in
      line <- (if String.eqb content "" then Ok None
               else t <- py_title_of role ;; Ok (Some (t ++ ": " ++ content))) ;;
      rest <- recent_turn_lines r ;;
      Ok (match line with Some l => l :: rest | None => rest end)
  end.

(** [_format_recent_turns] *)
Definition format_recent_turns (context : option dict) : result (list string) :=
  match ctx_truthy context with
  | None => Ok []
  | Some c =>
      match dict_get c "recent_messages" PNone with
      | PList [] => Ok []
      | PList msgs => recent_turn_lines (last_n 6 msgs)
      | _ => Ok []
      end
  end.

End RecentTurns.

(** ** The activity details of the MCP client ([mcp/garmin_client_v2.py]) *)


Section Details.

Variable json_loads : string -> option pyval.


End Details.

(** ** Vocabulary of the statements *)

(** [v[k]] read from a dict, [None] otherwise. *)
Definition field (v : pyval) (k : string) : pyval :=
  match v with PDict d => dict_get d k PNone | _ => PNone end.

(** The raw payloads that no decoding turns into a dict: falsy values,
    strings that do not decode or decode to something else, other non-dicts,
    and dicts whose [raw_text] string does not decode to a dict. *)
Definition unresolvable (json_loads : string -> option pyval) (raw : pyval) : Prop :=
  truthy raw = false
  \/ (exists s, raw = PStr s /\ (json_loads s = None \/ exists v, json_loads s = Some v /\ as_dict v = None))
  \/ (is_str raw = false /\ as_dict raw = None)
  \/ (exists d t, (raw = PDict d \/ exists s, raw = PStr s /\ json_loads s = Some (PDict d))
                 /\ dict_has d "raw_text" = true /\ dict_get d "raw_text" PNone = PStr t
                 /\ (json_loads t = None \/ exists v, json_loads t = Some v /\ as_dict v = None)).

(** The numeric entries of a dict are all [0]. *)
Definition numeric_fields_zero (v : pyval) : Prop :=
  match v with
  | PDict d => forall k x, In (k, x) d -> py_number x <> None -> x = PInt 0
  | _ => False
  end.







(** [5e-324], the least positive float. *)
Definition tiny_float : pyval := PFloat (S754_finite false 1 (-1074)).


(** A payload with no summary and one lap of [5e-324] m in 0 s. *)
Definition tiny_distance_activity : pyval :=
  PDict [("activityId", PInt 4);
         ("lapDTOs", PList [PDict [("distance", tiny_float); ("duration", PInt 0)]])].

(** The summary block is absent or reports a zero distance or duration. *)
Definition summary_missing (d : dict) : bool :=
  let summary := activity_summary d in
  py_eqz (dict_get summary "distance" (PInt 0)) || py_eqz (dict_get summary "duration" (PInt 0)).

(** A payload with no summary and two laps, one of them with a negative
    distance. *)
Definition negative_lap_activity : pyval :=
  PDict [("activityId", PInt 1);
         ("lapDTOs", PList [PDict [("distance", PInt 1000); ("duration", PInt 300)];
                            PDict [("distance", PInt (-1000)); ("duration", PInt 300)]])].

(** A payload with no summary and one lap of 1 km in 5 minutes. *)
Definition one_lap_dict : dict :=
  [("activityId", PInt 2);
   ("lapDTOs", PList [PDict [("distance", PInt 1000); ("duration", PInt 300)]])].

Definition one_lap_activity : pyval := PDict one_lap_dict.

(** The context holds a non-empty [recent_messages] list. *)
Definition has_recent_messages (context : option dict) : bool :=
  match ctx_truthy context with
  | Some c => match dict_get c "recent_messages" PNone with PList (_ :: _) => true | _ => false end
  | None => false
  end.

(** The context holds a [persona_profile] dict. *)
Definition has_persona_dict (context : option dict) : bool :=
  match ctx_truthy context with
  | Some c => match dict_get c "persona_profile" PNone with PDict _ => true | _ => false end
  | None => false
  end.

(** The running-context rules of [_plan_action] apply: the context carries a
    last intent, an analysis or a summary, and the question has a domain
    keyword or is at most 3 characters once stripped. *)
Definition running_context_fires (question : string) (context : option dict) : Prop :=
  exists c, ctx_truthy context = Some c /\ has_running_context c = true
    /\ (any_in context_keywords (py_lower question) = true
        \/ Nat.leb (String.length (py_strip (py_lower question))) 3 = true).

(** A model reply that declines the question. *)
Definition decline_reply : pyval := PStr (jq "{'action': 'decline_non_running', 'reason': 'off topic'}").

(** A model reply that asks for clarification. *)
Definition ask_reply : pyval := PStr (jq "{'action': 'ask_clarifying', 'reason': 'need goal'}").

(** A context with only a last intent. *)
Definition last_run_context : option dict := Some [("last_intent", PStr "last_run")].

(** An upstream whose details have an empty summary and whose splits hold an
    empty lap list. *)
Definition stale_splits_tool (c : mcp_call) (log : list mcp_call) : result pyval :=
  match c with
  | ListActivities _ _ => Ok (PStr "")
  | GetActivityDetails _ => Ok (PDict [("activityId", PInt 1); ("summaryDTO", PDict [])])
  | GetActivitySplits _ => Ok (PDict [("lapDTOs", PList [])])
  | GetActivityHrZones _ => Ok (PList [])
  | GetActivityWeather _ => Ok (PDict [])
  end.

(** [gathered_data["activities"]] *)
Definition activities_of (out : dict) : list pyval :=
  match dict_get out "activities" (PList []) with PList l => l | _ => [] end.

(** A gathered activity record whose [activity_id] is a listed id with
    property [Q]. *)
Definition gathered_from (Q : string -> Prop) (a : pyval) : Prop :=
  exists ad i, a = PDict ad /\ dict_get ad "activity_id" PNone = PStr i /\ Q i.

(** One section of a listing text. *)
Definition listing_section (n id ty : string) : string :=
  "--- Activity " ++ n ++ " --- ID: " ++ id ++ " Type: " ++ ty ++ " ".

(** A listing of 2 running and 8 cycling activities. *)
Definition mixed_listing : string :=
  listing_section "1" "101" "running" ++ listing_section "2" "102" "cycling"
  ++ listing_section "3" "103" "cycling" ++ listing_section "4" "104" "running"
  ++ listing_section "5" "105" "cycling" ++ listing_section "6" "106" "cycling"
  ++ listing_section "7" "107" "cycling" ++ listing_section "8" "108" "cycling"
  ++ listing_section "9" "109" "cycling" ++ listing_section "10" "110" "cycling".

Definition mixed_listing_tool (c : mcp_call) (log : list mcp_call) : result pyval :=
  match c with
  | ListActivities _ _ => Ok (PStr mixed_listing)
  | _ => stale_splits_tool c log
  end.

(** Every cached client is an object created before the next serial. *)
Definition cache_wf (st : client_cache) : Prop :=
  Forall (fun kv => client_serial (snd kv) < next_serial st)%nat (user_clients st).


(** A line of the recent turns: a role, [: ] and 1 to 220 characters of content. *)
Definition turn_line_ok (line : string) : Prop :=
  exists role content, line = role ++ ": " ++ content
    /\ (1 <= String.length content <= 220)%nat.


(** A lap entry is a dict, or a string that decodes to a dict. *)
Definition lap_resolves (json_loads : string -> option pyval) (lap : pyval) : bool :=
  match (match lap with PStr s => json_loads s | _ => Some lap end) with
  | Some (PDict _) => true
  | _ => false
  end.


(** The four fetches of [_gather_single_activity_data], in order. *)
Definition activity_fetches (aid : pyval) : list mcp_call :=
  [GetActivityDetails aid; GetActivitySplits aid; GetActivityHrZones aid; GetActivityWeather aid].

(** The calls made for one gathered activity: 1 to 5 calls, all fetches for
    the activity's own id. *)
Definition activity_block_ok (b : list mcp_call) (a : pyval) : Prop :=
  exists ad, a = PDict ad /\ (1 <= length b <= 5)%nat
    /\ Forall (fun c => In c (activity_fetches (dict_get ad "activity_id" PNone))) b.

(** The sum of a list of ints ([sum] over Python ints: exact). *)
Definition sumZ (l : list Z) : Z := fold_right Z.add 0%Z l.


(** ** C1: unresolvable payloads *)

Lemma resolve_raw_unresolvable json_loads raw :
  unresolvable json_loads raw -> resolve_raw json_loads raw = Ok None.
Proof.
  unfold resolve_raw.
  intros [Hf | [[s [-> [Hs | [v [Hs Hv]]]]] | [[Hs Hd] | [d [t [Hraw [Hk [Ht Hdec]]]]]]]].
  - now rewrite Hf.
  - destruct (truthy (PStr s)); simpl; [now rewrite Hs | reflexivity].
  - destruct (truthy (PStr s)); simpl; [rewrite Hs | reflexivity].
    destruct v; try reflexivity; discriminate.
  - destruct (truthy raw); [|reflexivity]; simpl.
    destruct raw; try discriminate; reflexivity.
  - assert (Hpost : (if dict_has d "raw_text" then
                       match loads json_loads (dict_get d "raw_text" PNone) with
                       | Ok v2 => Ok (as_dict v2)
                       | Exc JSONDecodeError => Ok None
                       | Exc KeyError => Ok None
                       | Exc e => Exc e
                       end
                     else Ok (Some d)) = Ok None).
    { rewrite Hk, Ht; simpl.
      destruct Hdec as [-> | [v [-> Hv]]]; [reflexivity | now rewrite Hv]. }
    destruct Hraw as [-> | [s [-> Hs]]].
    + destruct (truthy (PDict d)); [exact Hpost | reflexivity].
    + destruct (truthy (PStr s)); simpl; [rewrite Hs; exact Hpost | reflexivity].
Qed.

(** C1: a payload that cannot be resolved to a dict yields
    [_empty_activity()]: name ["Unknown"], type ["running"], every numeric
    field [0] and no laps. *)
Theorem normalize_activity_unresolvable_empty json_loads raw :
  unresolvable json_loads raw ->
  normalize_activity json_loads raw = Ok empty_activity
  /\ field empty_activity "name" = PStr "Unknown"
  /\ field empty_activity "type" = PStr "running"
  /\ field empty_activity "laps" = PList []
  /\ numeric_fields_zero empty_activity.
Proof.
  intros H. unfold normalize_activity.
  rewrite (resolve_raw_unresolvable _ _ H). simpl.
  repeat split.
  intros k x Hin Hnum.
  repeat (destruct Hin as [Hin | Hin]; [injection Hin as <- <-; simpl in Hnum; congruence |]).
  destruct Hin.
Qed.

Lemma normalize_activity_unresolvable_empty_witness :
  unresolvable json_decode (PStr "not json")
  /\ normalize_activity json_decode (PStr "not json") = Ok empty_activity.
Proof.
  assert (H : unresolvable json_decode (PStr "not json")).
  { right; left. exists "not json". split; [reflexivity | left; reflexivity]. }
  split; [exact H |].
  exact (proj1 (normalize_activity_unresolvable_empty json_decode (PStr "not json") H)).
Defined.

(** C1 counterexample: an undecodable string yields an empty activity whose
    name is ["Unknown"], not ["Unnamed Run"]. *)
Lemma normalize_activity_empty_name_counterexample :
  exists out, normalize_activity json_decode (PStr "not json") = Ok out
              /\ field out "name" <> PStr "Unnamed Run".
Proof.
  exists empty_activity. split; [reflexivity | discriminate].
Qed.

(** ** C2: the planner on a reply that is JSON but no object *)

(** C2: a model reply whose text decodes to a JSON value that is
    not an object (e.g. [[]]) makes [_plan_action] raise [AttributeError]
    at [plan.get("action")]. *)
Theorem plan_action_non_object_reply_raises json_loads question context s v :
  json_loads s = Some v -> as_dict v = None ->
  (forall c, ctx_truthy context = Some c -> context_hint_check c = Ok tt) ->
  plan_action json_loads question context (PDict [("content", PStr s)]) = Exc AttributeError.
Proof.
  intros Hs Hv Hctx. unfold plan_action.
  destruct (ctx_truthy context) as [c|] eqn:Hc; [rewrite (Hctx c eq_refl)|]; simpl;
  unfold parse_plan, reply_plan; simpl; rewrite Hs;
  destruct v; try discriminate; reflexivity.
Qed.

Lemma plan_action_non_object_reply_raises_witness :
  json_decode "[]" = Some (PList [])
  /\ plan_action json_decode "hello" None (PDict [("content", PStr "[]")]) = Exc AttributeError.
Proof.
  split; [reflexivity |].
  apply (plan_action_non_object_reply_raises json_decode "hello" None "[]" (PList []));
    [reflexivity | reflexivity | intros c Hc; discriminate].
Defined.

Lemma substring_length_le n s : (String.length (substring 0 n s) <= n)%nat.
Proof.
  revert n; induction s as [|c s IH]; intros [|n]; simpl; try lia.
  specialize (IH n); lia.
Qed.

Lemma running_context_rules_valid question c a r :
  In a valid_actions -> In (fst (running_context_rules question c (a, r))) valid_actions.
Proof.
  intros Ha. unfold running_context_rules.
  destruct (has_running_context c); [|exact Ha].
  destruct (any_in context_keywords (py_lower question));
  destruct (Nat.leb _ 3); simpl; auto; left; reflexivity.
Qed.

Lemma context_rules_valid question context a r ar :
  In a valid_actions ->
  context_rules question context (a, r) = Ok ar -> In (fst ar) valid_actions.
Proof.
  intros Ha H. unfold context_rules in H.
  destruct (ctx_truthy context) as [c|]; [| injection H as <-; exact Ha].
  set (ar1 := if detect_follow_up question context && negb (String.eqb a action_decline)
              then (action_answer, "Follow-up question with context.") else (a, r)) in H.
  assert (H1 : In (fst ar1) valid_actions)
    by (subst ar1; destruct (_ && _); simpl; auto; left; reflexivity).
  assert (H2 : In (fst (running_context_rules question c ar1)) valid_actions)
    by (destruct ar1; apply running_context_rules_valid; exact H1).
  unfold profile_rule in H.
  destruct (dict_get c "persona_profile" PNone); try (injection H as <-; exact H2).
  destruct (py_get _ "proficiency" PNone) as [prof|]; [|discriminate]; simpl in H.
  destruct (if truthy prof then _ else _) as [score|]; [|discriminate]; simpl in H.
  destruct (py_get _ "summary" PNone) as [hist|]; [|discriminate]; simpl in H.
  destruct (_ && _); injection H as <-; [left; reflexivity | exact H2].
Qed.

(** What does hold of every plan [_plan_action] returns: a valid action, a
    reason of at most 200 characters and at most 5 needed items. *)
Lemma plan_action_bounds json_loads question context response p :
  plan_action json_loads question context response = Ok p ->
  In (plan_action_of p) valid_actions
  /\ (String.length (plan_reason p) <= 200)%nat
  /\ (length (plan_needs_user_info p) <= 5)%nat.
Proof.
  unfold plan_action. intros H.
  destruct (match ctx_truthy context with Some c => _ | None => _ end); [|discriminate].
  cbn [bind] in H. unfold parse_plan in H.
  destruct (py_get _ "action" PNone) as [a0|]; [|discriminate]; cbn [bind] in H.
  destruct (py_get _ "needs_user_info" PNone) as [n0|]; [|discriminate]; cbn [bind] in H.
  destruct (py_get _ "reason" PNone) as [r0|]; [|discriminate]; cbn [bind] in H.
  set (act := match a0 with
            | PStr x => if existsb (String.eqb x) valid_actions then x else action_answer
            | _ => action_answer end) in H.
  assert (Ha : In act valid_actions).
  { subst act. destruct a0; try (left; reflexivity).
    destruct (existsb (String.eqb s) valid_actions) eqn:E; [|left; reflexivity].
    apply existsb_exists in E as [x [Hx Hsx]].
    apply String.eqb_eq in Hsx; subst; exact Hx. }
  destruct (context_rules question context _) as [[a1 r1]|] eqn:Hc; [|discriminate].
  cbn [bind] in H. apply context_rules_valid in Hc; [|exact Ha]. cbn [bind] in Hc.
  destruct (_ && _); injection H as <-; cbn [plan_action_of plan_reason plan_needs_user_info];
    (split; [try (left; reflexivity); exact Hc | split;
      [apply substring_length_le |
       exact (firstn_le_length 5 (match n0 with PList l => l | _ => [] end))]]).
Qed.

(** ** C5: heart-rate zones given as JSON strings *)

(** C5: a zone element that is a JSON-encoded string is not
    decoded; [normalize_hr_zones] raises [AttributeError] on it. *)
Theorem normalize_hr_zones_string_zone_raises s :
  normalize_hr_zones (PList [PStr s]) = Exc AttributeError.
Proof. reflexivity. Qed.

(** ** C7: lap numbering after a dropped lap *)

(** C7: with a non-zero summary, a dropped first lap entry leaves
    the next valid lap numbered 2: [lap_number] is the raw index. *)
Theorem normalize_activity_lap_number_raw_index json_loads :
  exists out lap,
    normalize_activity json_loads
      (PDict [("summaryDTO", PDict [("distance", PInt 1000); ("duration", PInt 300)]);
              ("lapDTOs", PList [PInt 7;
                                 PDict [("distance", PInt 1000); ("duration", PInt 300)]])])
    = Ok out
    /\ field out "laps" = PList [lap]
    /\ field lap "lap_number" = PInt 2.
Proof.
  do 2 eexists. split; [reflexivity | split; reflexivity].
Qed.

(** ** Facts about the float operations *)

Ltac nope := let H := fresh "H" in intros H; discriminate H.










Lemma SFeqb_zero f : SFeqb f fzero = true -> exists s, f = S754_zero s.
Proof. destruct f as [s|[]| |[] m e]; simpl; intros H; try discriminate; eexists; reflexivity. Qed.



















(** ** C9: pace and speed *)










Lemma normalize_dict_fields json d out :
  normalize_dict json d = Ok out ->
  exists dk dm laps pace speed,
    activity_totals json (dict_get (activity_summary d) "distance" (PInt 0))
      (dict_get (activity_summary d) "duration" (PInt 0)) (activity_splits json d)
      = Ok (dk, dm, laps)
    /\ derived_metrics dk dm = Ok (pace, speed)
    /\ field out "distance_km" = dk /\ field out "duration_min" = dm
    /\ field out "laps" = PList laps
    /\ field out "avg_pace_min_per_km" = pace /\ field out "avg_speed_kmh" = speed.
Proof.
  unfold normalize_dict. intros H.
  destruct (activity_totals json _ _ _) as [[[dk dm] laps]|] eqn:Ht; [|discriminate].
  cbn [bind] in H.
  destruct (derived_metrics dk dm) as [[pace speed]|] eqn:Hd; [|discriminate].
  cbn [bind] in H. inversion H; subst.
  exists dk, dm, laps, pace, speed. repeat split; try reflexivity; assumption.
Qed.




(** ** C4: totals recomputed from the laps *)

Lemma py_add_eqz a b r : py_eqz a = true -> py_eqz b = true -> py_add a b = Ok r -> py_eqz r = true.
Proof.
  unfold py_eqz, py_add, py_arith.
  destruct (py_number a) as [[x|fx]|], (py_number b) as [[y|fy]|];
    intros Ha Hb H; try discriminate Ha; try discriminate Hb; try discriminate H.
  - apply Z.eqb_eq in Ha, Hb. subst. injection H as <-. reflexivity.
  - apply Z.eqb_eq in Ha. subst. destruct (SFeqb_zero _ Hb) as [s ->].
    destruct s; vm_compute in H; injection H as <-; reflexivity.
  - apply Z.eqb_eq in Hb. subst. destruct (SFeqb_zero _ Ha) as [s ->].
    destruct s; vm_compute in H; injection H as <-; reflexivity.
  - destruct (SFeqb_zero _ Ha) as [s ->], (SFeqb_zero _ Hb) as [s' ->].
    destruct s, s'; vm_compute in H; injection H as <-; reflexivity.
Qed.

Lemma sum_field_from_zero acc k l r :
  py_eqz acc = true ->
  Forall (fun s => exists ld, s = PDict ld /\ py_eqz (dict_get ld k (PInt 0)) = true) l ->
  sum_field_from acc k l = Ok r -> py_eqz r = true.
Proof.
  intros Ha Hl. revert acc Ha. induction Hl as [|s l Hs _ IH]; intros acc Ha H;
    cbn [sum_field_from] in H.
  - injection H as <-. exact Ha.
  - destruct Hs as [ld [-> Hs]]. cbn [py_get bind] in H.
    destruct (py_add acc (dict_get ld k (PInt 0))) as [a|x] eqn:E; cbn [bind] in H; [|discriminate H].
    exact (IH a (py_add_eqz _ _ _ Ha Hs E) H).
Qed.

Lemma py_div_eqz a c r :
  py_eqz a = true -> (c = 60 \/ c = 1000)%Z -> py_div a (PInt c) = Ok r -> py_eqz r = true.
Proof.
  unfold py_div, py_eqz. cbn [py_number].
  destruct (py_number a) as [[x|fx]|]; intros Ha Hc H; try discriminate Ha.
  - apply Z.eqb_eq in Ha. subst. destruct Hc as [-> | ->]; vm_compute in H; injection H as <-; reflexivity.
  - destruct (SFeqb_zero _ Ha) as [s ->].
    destruct s, Hc as [-> | ->]; vm_compute in H; injection H as <-; reflexivity.
Qed.

Lemma activity_totals_missing json distance duration splits dk dm laps :
  py_eqz distance || py_eqz duration = true ->
  activity_totals json distance duration splits = Ok (dk, dm, laps) ->
  (valid_splits json splits = [] -> dk = PInt 0)
  /\ (valid_splits json splits <> [] -> exists ds ts,
        sum_field "distance" (valid_splits json splits) = Ok ds
        /\ sum_field "duration" (valid_splits json splits) = Ok ts
        /\ py_div ds (PInt 1000) = Ok dk /\ py_div ts (PInt 60) = Ok dm).
Proof.
  intros Hm. unfold activity_totals. rewrite Hm. cbv zeta.
  destruct (valid_splits json splits) as [|s r].
  - intros H. injection H as <- <- <-.
    split; [reflexivity | intros Hn; exfalso; exact (Hn eq_refl)].
  - destruct (sum_field "distance" (s :: r)) as [ds|x] eqn:S1; cbn [bind]; [|nope].
    destruct (py_div ds (PInt 1000)) as [dk'|x] eqn:E1; cbn [bind]; [|nope].
    destruct (sum_field "duration" (s :: r)) as [ts|x] eqn:S2; cbn [bind]; [|nope].
    destruct (py_div ts (PInt 60)) as [dm'|x] eqn:E2; cbn [bind]; [|nope].
    destruct (normalize_laps json (s :: r)) as [laps'|x]; cbn [bind]; [|nope].
    intros H. injection H as <- <- <-. split; [nope|].
    intros _. exists ds, ts. split; [reflexivity|]. split; [reflexivity|]. split; assumption.
Qed.

(** C4: for a payload that resolves to a dict whose summary block is
    absent or reports a zero distance or duration, [normalize_activity]
    returns distance, duration and pace [0] and no laps when no lap entry is a
    dict or a decodable string; whenever it returns and some lap entry is
    valid, [distance_km] is the sum (Python's [sum], from the int [0]) of the
    valid laps' [distance] divided by 1000, and [duration_min] the sum of
    their [duration] divided by 60; and when every valid lap is a dict with
    a zero distance, [distance_km] is zero. *)
Theorem normalize_activity_zero_summary_totals json raw d :
  resolve_raw json raw = Ok (Some d) ->
  summary_missing d = true ->
  (valid_splits json (activity_splits json d) = [] ->
   exists out, normalize_activity json raw = Ok out
     /\ field out "distance_km" = PInt 0 /\ field out "duration_min" = PInt 0
     /\ field out "avg_pace_min_per_km" = PInt 0 /\ field out "laps" = PList [])
  /\ (forall out, normalize_activity json raw = Ok out ->
      valid_splits json (activity_splits json d) <> [] ->
      exists ds ts,
        sum_field "distance" (valid_splits json (activity_splits json d)) = Ok ds
        /\ sum_field "duration" (valid_splits json (activity_splits json d)) = Ok ts
        /\ py_div ds (PInt 1000) = Ok (field out "distance_km")
        /\ py_div ts (PInt 60) = Ok (field out "duration_min"))
  /\ (forall out, normalize_activity json raw = Ok out ->
      Forall (fun s => exists ld, s = PDict ld /\ py_eqz (dict_get ld "distance" (PInt 0)) = true)
        (valid_splits json (activity_splits json d)) ->
      py_eqz (field out "distance_km") = true).
Proof.
  intros Hr Hs. unfold normalize_activity. rewrite Hr. cbn [bind]. split; [|split].
  - intros Hv. unfold normalize_dict, activity_totals.
    unfold summary_missing in Hs. rewrite Hs, Hv. cbn [bind].
    eexists. split; [reflexivity|]. repeat split; reflexivity.
  - intros out H Hne.
    destruct (normalize_dict_fields _ _ _ H)
      as [dk [dm [laps [pace [speed [Ht [_ [Hk [Hm _]]]]]]]]].
    destruct (activity_totals_missing _ _ _ _ _ _ _ Hs Ht) as [_ H2].
    destruct (H2 Hne) as [ds [ts [E1 [E2 [E3 E4]]]]].
    exists ds, ts. rewrite Hk, Hm. split; [exact E1|]. split; [exact E2|]. split; assumption.
  - intros out H Hall.
    destruct (normalize_dict_fields _ _ _ H)
      as [dk [dm [laps [pace [speed [Ht [_ [Hk _]]]]]]]].
    destruct (activity_totals_missing _ _ _ _ _ _ _ Hs Ht) as [H1 H2].
    rewrite Hk.
    assert (Hc : valid_splits json (activity_splits json d) = []
                 \/ valid_splits json (activity_splits json d) <> [])
      by (destruct (valid_splits json (activity_splits json d)); [left; reflexivity | right; discriminate]).
    destruct Hc as [Hc|Hc].
    + rewrite (H1 Hc). reflexivity.
    + destruct (H2 Hc) as [ds [ts [E1 [_ [E3 _]]]]].
      apply (py_div_eqz ds 1000 dk); [|right; reflexivity | exact E3].
      exact (sum_field_from_zero (PInt 0) _ _ _ eq_refl Hall E1).
Qed.

(** Witness of C4 on a payload with no summary and one lap. *)
Lemma normalize_activity_zero_summary_totals_witness :
  resolve_raw json_decode one_lap_activity = Ok (Some one_lap_dict)
  /\ summary_missing one_lap_dict = true
  /\ (forall out, normalize_activity json_decode one_lap_activity = Ok out ->
      valid_splits json_decode (activity_splits json_decode one_lap_dict) <> [] ->
      exists ds ts,
        sum_field "distance" (valid_splits json_decode (activity_splits json_decode one_lap_dict)) = Ok ds
        /\ sum_field "duration" (valid_splits json_decode (activity_splits json_decode one_lap_dict)) = Ok ts
        /\ py_div ds (PInt 1000) = Ok (field out "distance_km")
        /\ py_div ts (PInt 60) = Ok (field out "duration_min")).
Proof.
  split; [reflexivity|]. split; [reflexivity|].
  exact (proj1 (proj2 (normalize_activity_zero_summary_totals json_decode one_lap_activity one_lap_dict
                         eq_refl eq_refl))).
Defined.

(** C4 counterexample: with no summary, laps of 1000 m and -1000 m give a
    zero [distance_km] although a lap has a positive distance; so does a
    single lap of [5e-324] m in 0 s, whose distance divided by 1000
    underflows. *)
Lemma normalize_activity_zero_distance_counterexample :
  (exists out laps,
     normalize_activity json_decode negative_lap_activity = Ok out
     /\ py_eqz (field out "distance_km") = true
     /\ field out "laps" = PList laps
     /\ Exists (fun lap => py_gt0 (field lap "distance_m") = Ok true) laps)
  /\ (exists out laps,
     normalize_activity json_decode tiny_distance_activity = Ok out
     /\ py_eqz (field out "distance_km") = true
     /\ field out "laps" = PList laps /\ laps <> []
     /\ Forall (fun lap => py_gt0 (field lap "distance_m") = Ok true) laps).
Proof.
  split; do 2 eexists; (split; [vm_compute; reflexivity|]);
    (split; [reflexivity|]); (split; [reflexivity|]).
  - constructor. reflexivity.
  - split; [discriminate|]. repeat constructor.
Qed.

(** ** C8, C10: the overrides of the planner *)

Lemma running_context_rules_cases question c ar :
  running_context_rules question c ar = ar
  \/ (fst (running_context_rules question c ar) = action_answer
      /\ has_running_context c = true
      /\ (any_in context_keywords (py_lower question) = true
          \/ Nat.leb (String.length (py_strip (py_lower question))) 3 = true)).
Proof.
  unfold running_context_rules.
  destruct (has_running_context c); [|left; reflexivity].
  destruct (any_in context_keywords (py_lower question)) eqn:Ek;
  destruct (Nat.leb _ 3) eqn:El; simpl; auto.
Qed.

Lemma profile_rule_cases question c ar ar' :
  profile_rule question c ar = Ok ar' ->
  ar' = ar \/ (fst ar' = action_answer /\ exists pp, dict_get c "persona_profile" PNone = PDict pp).
Proof.
  unfold profile_rule. intros H.
  destruct (dict_get c "persona_profile" PNone) as [| | | | | | pp]; try (injection H as <-; left; reflexivity).
  destruct (py_get _ "proficiency" PNone) as [prof|]; [|discriminate]; simpl in H.
  destruct (if truthy prof then _ else _) as [score|]; [|discriminate]; simpl in H.
  destruct (py_get _ "summary" PNone) as [hist|]; [|discriminate]; simpl in H.
  destruct (_ && _); injection H as <-; [right; split; [reflexivity | exists pp; reflexivity] | left; reflexivity].
Qed.

Lemma context_rules_none question context ar :
  ctx_truthy context = None -> context_rules question context ar = Ok ar.
Proof. intros H. unfold context_rules. now rewrite H. Qed.

Lemma context_rules_cases question context a r a' r' :
  context_rules question context (a, r) = Ok (a', r') -> (a', r') = (a, r) \/ a' = action_answer.
Proof.
  unfold context_rules. intros H.
  destruct (ctx_truthy context) as [c|]; [|injection H as <- <-; left; reflexivity].
  apply profile_rule_cases in H as [H | [H _]]; [| right; exact H].
  cbn [fst] in H.
  set (ar1 := if detect_follow_up question context && negb (String.eqb a action_decline)
              then (action_answer, "Follow-up question with context.") else (a, r)) in H.
  destruct (running_context_rules_cases question c ar1) as [E | [Hf _]];
    [| right; rewrite <- H in Hf; exact Hf].
  rewrite E in H. subst ar1. destruct (_ && _); injection H as -> ->; [right | left]; reflexivity.
Qed.

(** C8: for a question on the coachable whitelist, whenever
    [_plan_action] returns, its action is [answer] or [decline_non_running];
    it is [decline_non_running] exactly when the context rules leave the
    action at [decline_non_running], which needs the base classification to be
    [decline_non_running] (the context rules only ever set [answer]); with no
    context the base [decline_non_running] is kept and every other base
    classification becomes [answer]. *)
Theorem plan_action_coachable_override json question context response a needs r p :
  is_coachable question = true ->
  parse_plan json response = Ok (a, needs, r) ->
  plan_action json question context response = Ok p ->
  (plan_action_of p = action_answer \/ plan_action_of p = action_decline)
  /\ (plan_action_of p = action_decline <->
      exists r', context_rules question context (a, r) = Ok (action_decline, r'))
  /\ (plan_action_of p = action_decline -> a = action_decline)
  /\ (ctx_truthy context = None -> (plan_action_of p = action_decline <-> a = action_decline)).
Proof.
  intros Hq Hp H. unfold plan_action in H.
  destruct (match ctx_truthy context with Some c => _ | None => _ end); [|discriminate].
  cbn [bind] in H. rewrite Hp in H. cbn [bind] in H.
  destruct (context_rules question context (a, r)) as [[a1 r1]|] eqn:Hc; [|discriminate].
  cbn [bind] in H. rewrite Hq in H. cbn [andb] in H.
  destruct (String.eqb a1 action_decline) eqn:Ed; cbn [negb] in H; injection H as <-;
    cbn [plan_action_of].
  - apply String.eqb_eq in Ed. subst a1.
    assert (Ha : a = action_decline)
      by (destruct (context_rules_cases _ _ _ _ _ _ Hc) as [E | E];
          [injection E as <- _; reflexivity | discriminate]).
    split; [right; reflexivity|]. split; [split; [intros _; exists r1; first [exact Hc | reflexivity] | reflexivity]|].
    split; [intros _; exact Ha|]. intros _. split; [intros _; exact Ha | reflexivity].
  - apply String.eqb_neq in Ed.
    split; [left; reflexivity|]. split.
    { split; [discriminate|]. intros [r' Hr']. try rewrite Hc in Hr'. injection Hr' as E _. contradiction. }
    split; [discriminate|]. intros Hn. split; [discriminate|]. intros ->.
    rewrite (context_rules_none _ _ _ Hn) in Hc. injection Hc as E _. exfalso. apply Ed. symmetry; exact E.
Qed.

(** Witness of C8: a coachable question with no context and a reply asking
    for clarification is answered. *)
Lemma plan_action_coachable_override_witness :
  is_coachable "what's my easy pace?" = true
  /\ parse_plan json_decode ask_reply = Ok (action_ask, [], "need goal")
  /\ plan_action json_decode "what's my easy pace?" None ask_reply
     = Ok (mk_plan action_answer "Coachable question: answer best-effort." [])
  /\ ((action_answer = action_answer \/ action_answer = action_decline)
      /\ (action_answer = action_decline <->
          exists r', context_rules "what's my easy pace?" None (action_ask, "need goal")
                     = Ok (action_decline, r'))
      /\ (action_answer = action_decline -> action_ask = action_decline)
      /\ (ctx_truthy None = None -> (action_answer = action_decline <-> action_ask = action_decline))).
Proof.
  split; [reflexivity|]. split; [reflexivity|]. split; [reflexivity|].
  apply (plan_action_coachable_override json_decode "what's my easy pace?" None ask_reply
           action_ask [] "need goal"
           (mk_plan action_answer "Coachable question: answer best-effort." []));
    reflexivity.
Defined.

(** C8 counterexample: the coachable question [what's my easy pace?] with a
    last intent in the context and a reply that declines it is answered: the
    base [decline_non_running] is not kept, because the running-context
    keyword rule turns it into [answer] first. *)
Lemma plan_action_decline_overridden_counterexample :
  is_coachable "what's my easy pace?" = true
  /\ parse_plan json_decode decline_reply = Ok (action_decline, [], "off topic")
  /\ plan_action json_decode "what's my easy pace?" last_run_context decline_reply
     = Ok (mk_plan action_answer "Coachable question: answer best-effort." []).
Proof. split; [reflexivity|]. split; reflexivity. Qed.

(** C10: with no non-empty [recent_messages] list in the context,
    [_detect_follow_up] is false whatever the question; and if the context has
    no [persona_profile] dict either, the context rules of [_plan_action]
    either keep the base action and reason or set [answer] through the
    running-context rules (a last intent, analysis or summary, together with a
    domain keyword or a question of at most 3 characters). *)
Theorem follow_up_needs_recent_messages question context a r a' r' :
  has_recent_messages context = false ->
  detect_follow_up question context = false
  /\ (has_persona_dict context = false ->
      context_rules question context (a, r) = Ok (a', r') ->
      (a', r') = (a, r) \/ (a' = action_answer /\ running_context_fires question context)).
Proof.
  intros Hm.
  assert (Hd : detect_follow_up question context = false).
  { unfold has_recent_messages in Hm. unfold detect_follow_up.
    destruct (ctx_truthy context) as [c|]; [|reflexivity].
    destruct (dict_get c "recent_messages" PNone) as [| | | | | l |]; try reflexivity.
    destruct l; [reflexivity | discriminate]. }
  split; [exact Hd|]. intros Hp H.
  unfold context_rules in H. unfold has_persona_dict in Hp.
  destruct (ctx_truthy context) as [c|] eqn:Hc; [|injection H as <- <-; left; reflexivity].
  rewrite Hd in H. cbn [andb] in H.
  assert (Hpr : forall ar, profile_rule question c ar = Ok ar).
  { intros ar. unfold profile_rule.
    destruct (dict_get c "persona_profile" PNone); try reflexivity. discriminate. }
  rewrite Hpr in H.
  destruct (running_context_rules_cases question c (a, r)) as [E | [Hf [Hrc Hk]]].
  - rewrite E in H. injection H as <- <-. left; reflexivity.
  - right. injection H as Ha. rewrite Ha in Hf. split; [exact Hf|].
    exists c. auto.
Qed.

(** Witness of C10: with only a last intent in the context, [my hr?] is
    answered through the keyword rule. *)
Lemma follow_up_needs_recent_messages_witness :
  has_recent_messages last_run_context = false
  /\ has_persona_dict last_run_context = false
  /\ context_rules "my hr?" last_run_context (action_ask, "need goal")
     = Ok (action_answer, "Context indicates running follow-up.")
  /\ detect_follow_up "my hr?" last_run_context = false
  /\ (has_persona_dict last_run_context = false ->
      context_rules "my hr?" last_run_context (action_ask, "need goal")
        = Ok (action_answer, "Context indicates running follow-up.") ->
      (action_answer, "Context indicates running follow-up.") = (action_ask, "need goal")
      \/ (action_answer = action_answer /\ running_context_fires "my hr?" last_run_context)).
Proof.
  split; [reflexivity|]. split; [reflexivity|]. split; [reflexivity|].
  apply (follow_up_needs_recent_messages "my hr?" last_run_context action_ask "need goal"
           action_answer "Context indicates running follow-up.").
  reflexivity.
Defined.

(** ** C3, C6: the gathering orchestrator *)

Lemma dict_get_set_same d k v def : dict_get (dict_set d k v) k def = v.
Proof.
  induction d as [|[k' v'] r IH]; simpl.
  - now rewrite String.eqb_refl.
  - destruct (String.eqb k k') eqn:E; simpl; rewrite E; auto.
Qed.

Lemma dict_get_set_other d k v w def :
  k <> w -> dict_get (dict_set d k v) w def = dict_get d w def.
Proof.
  intros Hkw. induction d as [|[k' v'] r IH]; simpl.
  - destruct (String.eqb w k) eqn:E; [apply String.eqb_eq in E; congruence | reflexivity].
  - destruct (String.eqb k k') eqn:E; simpl.
    + apply String.eqb_eq in E; subst k'.
      destruct (String.eqb w k) eqn:E2; [apply String.eqb_eq in E2; congruence | reflexivity].
    + destruct (String.eqb w k'); auto.
Qed.

Lemma dict_has_set_other d k v w :
  k <> w -> dict_has (dict_set d k v) w = dict_has d w.
Proof.
  intros Hkw. unfold dict_has. induction d as [|[k' v'] r IH]; simpl.
  - destruct (String.eqb k w) eqn:E; [apply String.eqb_eq in E; congruence | reflexivity].
  - destruct (String.eqb k k') eqn:E; simpl; [|now rewrite IH].
    reflexivity.
Qed.

Lemma normalize_activity_is_dict json raw v :
  normalize_activity json raw = Ok v -> exists a, v = PDict a.
Proof.
  unfold normalize_activity. intros H.
  destruct (resolve_raw json raw) as [[d|]|]; cbn [bind] in H; [| injection H as <-; eexists; reflexivity | discriminate].
  unfold normalize_dict in H.
  destruct (activity_totals json _ _ _) as [[[dk dm] laps]|]; [|discriminate]. cbn [bind] in H.
  destruct (derived_metrics dk dm) as [[pace speed]|]; [|discriminate]. cbn [bind] in H.
  injection H as <-. eexists; reflexivity.
Qed.

Lemma normalize_activity_data_shape json ad :
  let (ad', n) := normalize_activity_data json ad in
  (n = PNone \/ exists a nh nw, n = PDict [("activity", PDict a); ("hr_zones", nh); ("weather", nw)])
  /\ (forall w, w <> "raw_activity" -> dict_has ad' w = dict_has ad w)
  /\ (forall w def, w <> "raw_activity" -> dict_get ad' w def = dict_get ad w def).
Proof.
  unfold normalize_activity_data.
  set (ra0 := dict_get ad "raw_activity" (PDict [])).
  set (rs := dict_get ad "raw_splits" (PDict [])).
  assert (Hout : forall ra ad',
    (forall w, w <> "raw_activity" -> dict_has ad' w = dict_has ad w) ->
    (forall w def, w <> "raw_activity" -> dict_get ad' w def = dict_get ad w def) ->
    let (ad'', n) :=
      match (na <- normalize_activity json ra ;;
             nh <- normalize_hr_zones (dict_get ad' "raw_hr_zones" (PList [])) ;;
             nw <- normalize_weather (dict_get ad' "raw_weather" (PDict [])) ;;
             Ok (PDict [("activity", na); ("hr_zones", nh); ("weather", nw)])) with
      | Ok v => (ad', v)
      | Exc _ => (ad', PNone)
      end in
    (n = PNone \/ exists a nh nw, n = PDict [("activity", PDict a); ("hr_zones", nh); ("weather", nw)])
    /\ (forall w, w <> "raw_activity" -> dict_has ad'' w = dict_has ad w)
    /\ (forall w def, w <> "raw_activity" -> dict_get ad'' w def = dict_get ad w def)).
  { intros ra ad' Hh Hg.
    destruct (normalize_activity json ra) as [na|] eqn:Hna; cbn [bind]; [|auto].
    destruct (normalize_activity_is_dict _ _ _ Hna) as [a ->].
    destruct (normalize_hr_zones _) as [nh|]; cbn [bind]; [|auto].
    destruct (normalize_weather _) as [nw|]; cbn [bind]; [|auto].
    split; [right; eauto | auto]. }
  destruct (truthy rs).
  - destruct ra0 as [| | | | | | ra]; try (split; [left; reflexivity | auto]).
    destruct (dict_has ad "raw_activity").
    + apply Hout.
      * intros w Hw. apply dict_has_set_other. congruence.
      * intros w def Hw. apply dict_get_set_other. congruence.
    + apply Hout; auto.
  - apply Hout; auto.
Qed.

Lemma renormalize_keys json ad w def :
  w <> "raw_activity" -> w <> "normalized" ->
  dict_has (renormalize json ad) w = dict_has ad w
  /\ dict_get (renormalize json ad) w def = dict_get ad w def.
Proof.
  intros H1 H2. unfold renormalize.
  pose proof (normalize_activity_data_shape json ad) as Hs.
  destruct (normalize_activity_data json ad) as [ad' n]. destruct Hs as [_ [Hh Hg]].
  rewrite dict_has_set_other, dict_get_set_other by congruence. auto.
Qed.

Lemma renormalize_incomplete_ok json ad :
  exists b, is_data_incomplete (renormalize json ad) = Ok b.
Proof.
  unfold renormalize.
  pose proof (normalize_activity_data_shape json ad) as Hs.
  destruct (normalize_activity_data json ad) as [ad' n]. destruct Hs as [Hn _].
  unfold is_data_incomplete. destruct (dict_has _ "error"); [eauto|].
  rewrite dict_get_set_same.
  destruct Hn as [-> | [a [nh [nw ->]]]]; simpl; [eauto|].
  destruct (py_eqz _); simpl; [eauto|]. destruct (py_eqz _); simpl; eauto.
Qed.

Lemma gather_single_shape json tool aid log :
  exists ad1 log1,
    gather_single_activity_data json tool aid log = (Ok ad1, log1)
    /\ (exists b, is_data_incomplete ad1 = Ok b)
    /\ dict_has ad1 "warning" = false
    /\ dict_get ad1 "activity_id" PNone = aid.
Proof.
  unfold gather_single_activity_data, fetch_into, mret.
  destruct (tool (GetActivityDetails aid) log) as [v1|e1];
    [destruct (tool (GetActivitySplits aid) _) as [v2|e2];
     [destruct (tool (GetActivityHrZones aid) _) as [v3|e3];
      [destruct (tool (GetActivityWeather aid) _) as [v4|e4]|]|]|];
    do 2 eexists; (split; [reflexivity|]);
    try (simpl; split; [eexists; reflexivity | split; reflexivity]).
  split; [apply renormalize_incomplete_ok|].
  destruct (renormalize_keys json
              (dict_set (dict_set (dict_set (dict_set
                 [("activity_id", aid); ("raw_activity", PNone); ("raw_splits", PNone);
                  ("raw_hr_zones", PNone); ("raw_weather", PNone); ("normalized", PNone)]
                 "raw_activity" v1) "raw_splits" v2) "raw_hr_zones" v3) "raw_weather" v4)
              "warning" PNone) as [Hw _]; try discriminate.
  destruct (renormalize_keys json
              (dict_set (dict_set (dict_set (dict_set
                 [("activity_id", aid); ("raw_activity", PNone); ("raw_splits", PNone);
                  ("raw_hr_zones", PNone); ("raw_weather", PNone); ("normalized", PNone)]
                 "raw_activity" v1) "raw_splits" v2) "raw_hr_zones" v3) "raw_weather" v4)
              "activity_id" PNone) as [_ Hi]; try discriminate.
  rewrite Hw, Hi. split; reflexivity.
Qed.

(** C3: [gather_data] handles each activity id in one pass. It
    gathers the activity, and if [_is_data_incomplete] holds and [raw_splits]
    is falsy, it makes exactly one more [get_activity_splits] call and
    re-normalizes with the result of that call when it returns, or keeps
    the record as it is when that call raises. In every other case, including an incomplete record whose
    [raw_splits] is truthy, it makes no further call and keeps the record as
    it is. No retry follows, the step never raises, the record never carries
    a [warning] key, and the loop appends it to the activities. *)
Theorem process_activity_single_correction json tool aid log :
  exists ad1 log1 ad log',
    gather_single_activity_data json tool aid log = (Ok ad1, log1)
    /\ process_activity json tool aid log = (Ok ad, log')
    /\ dict_has ad "warning" = false
    /\ ((is_data_incomplete ad1 = Ok true
         /\ truthy (dict_get ad1 "raw_splits" PNone) = false
         /\ log' = (log1 ++ [GetActivitySplits aid])%list
         /\ match tool (GetActivitySplits aid) log1 with
            | Ok v => ad = renormalize json (dict_set ad1 "raw_splits" v)
            | Exc _ => ad = ad1
            end)
        \/ ((is_data_incomplete ad1 = Ok false \/ truthy (dict_get ad1 "raw_splits" PNone) = true)
            /\ log' = log1 /\ ad = ad1))
    /\ (forall num processed acts rest,
          (processed < num)%Z -> truthy aid = true ->
          gather_loop json tool num processed acts (PDict [("activityId", aid)] :: rest) log
          = gather_loop json tool num (processed + 1) ((acts ++ [PDict ad])%list) rest log').
Proof.
  destruct (gather_single_shape json tool aid log) as [ad1 [log1 [Hg [[b Hb] [Hw Hid]]]]].
  assert (Hp : exists ad log', process_activity json tool aid log = (Ok ad, log')
    /\ dict_has ad "warning" = false
    /\ ((is_data_incomplete ad1 = Ok true
         /\ truthy (dict_get ad1 "raw_splits" PNone) = false
         /\ log' = (log1 ++ [GetActivitySplits aid])%list
         /\ match tool (GetActivitySplits aid) log1 with
            | Ok v => ad = renormalize json (dict_set ad1 "raw_splits" v)
            | Exc _ => ad = ad1
            end)
        \/ ((is_data_incomplete ad1 = Ok false \/ truthy (dict_get ad1 "raw_splits" PNone) = true)
            /\ log' = log1 /\ ad = ad1))).
  { unfold process_activity, mbind. rewrite Hg, Hb.
    destruct b.
    - unfold correct_incomplete_data.
      destruct (truthy (dict_get ad1 "raw_splits" PNone)) eqn:Hs; cbn [negb].
      + do 2 eexists. split; [reflexivity|]. split; [exact Hw|].
        right. split; [right; reflexivity | split; reflexivity].
      + destruct (tool (GetActivitySplits aid) log1) as [v|e] eqn:Ev.
        * do 2 eexists. split; [reflexivity|]. split.
          { destruct (renormalize_keys json (dict_set ad1 "raw_splits" v) "warning" PNone)
              as [H _]; try discriminate.
            rewrite H, dict_has_set_other by discriminate. exact Hw. }
          left. split; [reflexivity|]. split; [reflexivity|]. split; [reflexivity|].
          reflexivity.
        * do 2 eexists. split; [reflexivity|]. split; [exact Hw|].
          left. split; [reflexivity|]. split; [reflexivity|]. split; [reflexivity|].
          reflexivity.
    - do 2 eexists. split; [reflexivity|]. split; [exact Hw|].
      right. split; [left; reflexivity | split; reflexivity]. }
  destruct Hp as [ad [log' [Hp [Hw' Hc]]]].
  exists ad1, log1, ad, log'. split; [exact Hg|]. split; [exact Hp|].
  split; [exact Hw'|]. split; [exact Hc|].
  intros num processed acts rest Hlt Ht. simpl.
  replace (num <=? processed)%Z with false by (symmetry; apply Z.leb_gt; exact Hlt).
  rewrite Ht. cbn [negb]. rewrite Hp. reflexivity.
Qed.

(** C3 counterexample: details with an empty summary and splits with an empty
    lap list give an incomplete record, yet the splits are fetched once only
    (the stored [raw_splits] dict is truthy) and the record has no
    [warning] key. *)
Lemma process_activity_no_refetch_counterexample :
  match process_activity json_decode stale_splits_tool (PStr "1") [] with
  | (Ok ad, log') =>
      is_data_incomplete ad = Ok true /\ dict_has ad "warning" = false
      /\ log' = [GetActivityDetails (PStr "1"); GetActivitySplits (PStr "1");
                 GetActivityHrZones (PStr "1"); GetActivityWeather (PStr "1")]
  | (Exc _, _) => False
  end.
Proof. vm_compute. repeat split. Qed.

Lemma process_activity_id json tool aid log ad log' :
  process_activity json tool aid log = (Ok ad, log') -> dict_get ad "activity_id" PNone = aid.
Proof.
  destruct (gather_single_shape json tool aid log) as [ad1 [log1 [Hg [[b Hb] [_ Hid]]]]].
  unfold process_activity, mbind. rewrite Hg, Hb. intros H.
  destruct b; [|injection H as <- _; exact Hid].
  unfold correct_incomplete_data in H.
  destruct (negb (truthy (dict_get ad1 "raw_splits" PNone))); [|injection H as <- _; exact Hid].
  destruct (tool (GetActivitySplits aid) log1) as [v|e]; injection H as <- _; [|exact Hid].
  destruct (renormalize_keys json (dict_set ad1 "raw_splits" v) "activity_id" PNone)
    as [_ H]; try discriminate.
  rewrite H, dict_get_set_other by discriminate. exact Hid.
Qed.

Lemma listed_ids_sections ty text i :
  In i (listed_ids ty text) ->
  exists sec, In sec (split_sections text) /\ section_type sec = Some ty /\ section_id sec = Some i.
Proof.
  unfold listed_ids. intros H. apply in_flat_map in H as [sec [Hin H]].
  destruct (String.eqb (py_strip sec) ""); [contradiction|].
  destruct (section_type sec) as [t|] eqn:Ht; [|contradiction].
  destruct (section_id sec) as [j|] eqn:Hj; [|contradiction].
  destruct (String.eqb t ty) eqn:E; [|contradiction].
  apply String.eqb_eq in E. subst t. destruct H as [<- | []].
  exists sec. auto.
Qed.

Lemma gather_loop_from json tool (Q : string -> Prop) num processed acts items log :
  Forall (gathered_from Q) acts ->
  Forall (fun it => exists i, it = PDict [("activityId", PStr i)] /\ Q i) items ->
  match gather_loop json tool num processed acts items log with
  | (Ok (acts', _), _) => Forall (gathered_from Q) acts'
  | (Exc _, _) => True
  end.
Proof.
  revert processed acts log.
  induction items as [|it r IH]; intros processed acts log Ha Hi; simpl; [exact Ha|].
  destruct (num <=? processed)%Z; [exact Ha|].
  inversion Hi as [|? ? [i [-> Hq]] Hr]; subst. simpl.
  destruct (negb (negb (String.eqb i ""))); [apply IH; assumption|].
  destruct (process_activity json tool (PStr i) log) as [[ad|e] log'] eqn:Hp; [|exact Ha].
  apply IH; [|exact Hr].
  apply Forall_app. split; [exact Ha|]. constructor; [|constructor].
  exists ad, i. split; [reflexivity|]. split; [|exact Hq].
  exact (process_activity_id _ _ _ _ _ _ Hp).
Qed.


(** C6: every activity in the list [gather_data] returns comes from a
    section of the text of the [list_activities] reply (requested with type
    [running] and limit [5 * num]) whose [Type:] field is [running]: its
    [activity_id] is the [ID:] field of that section. *)
Theorem gather_data_only_running json tool user_request scope num log :
  exists out log',
    gather_data json tool user_request scope num log = (Ok out, log')
    /\ forall a, In a (activities_of out) ->
       exists text ad sec i,
         tool (ListActivities "running" (num * 5)) log = Ok (PStr text)
         /\ a = PDict ad /\ In sec (split_sections text)
         /\ section_type sec = Some "running" /\ section_id sec = Some i
         /\ dict_get ad "activity_id" PNone = PStr i.
Proof.
  unfold gather_data, get_activities, mbind, mcall.
  destruct (tool (ListActivities "running" (num * 5)) log) as [v|e] eqn:Et;
    [| do 2 eexists; split; [reflexivity | intros a []]].
  destruct v as [| | | | text | |]; unfold mret;
    try (do 2 eexists; split; [reflexivity | intros a []]).
  set (Q := fun i => exists sec, In sec (split_sections text)
                       /\ section_type sec = Some "running" /\ section_id sec = Some i).
  assert (Hi : Forall (fun it => exists i, it = PDict [("activityId", PStr i)] /\ Q i)
                 (map (fun i => PDict [("activityId", PStr i)]) (listed_ids "running" text))).
  { apply Forall_forall. intros it Hit. apply in_map_iff in Hit as [i [<- Hin]].
    exists i. split; [reflexivity|]. apply listed_ids_sections; exact Hin. }
  destruct (map _ (listed_ids "running" text)) as [|it0 r0] eqn:Hm;
    [do 2 eexists; split; [reflexivity | intros a []]|].
  pose proof (gather_loop_from json tool Q num 0 [] (it0 :: r0) ((log ++ [ListActivities "running" (num * 5)])%list)
                (Forall_nil _) Hi) as Hl.
  destruct (gather_loop json tool num 0 [] (it0 :: r0) _) as [[[acts [e|]]|e] log2].
  - do 2 eexists. split; [reflexivity|]. intros a Ha.
    unfold activities_of in Ha. simpl in Ha.
    rewrite Forall_forall in Hl. destruct (Hl a Ha) as [ad [i [-> [Hid [sec [Hs [Ht Hsi]]]]]]].
    exists text, ad, sec, i. repeat split; auto.
  - do 2 eexists. split; [reflexivity|]. intros a Ha.
    unfold activities_of in Ha. simpl in Ha.
    rewrite Forall_forall in Hl. destruct (Hl a Ha) as [ad [i [-> [Hid [sec [Hs [Ht Hsi]]]]]]].
    exists text, ad, sec, i. repeat split; auto.
  - do 2 eexists. split; [reflexivity | intros a []].
Qed.

(** The listing of 2 running and 8 cycling activities, with 3 activities
    asked for: the two running ones are gathered. *)
Example gather_data_mixed_listing :
  match gather_data json_decode mixed_listing_tool "recent runs" "all" 3 [] with
  | (Ok out, _) => map (fun a => field a "activity_id") (activities_of out) = [PStr "101"; PStr "104"]
  | (Exc _, _) => False
  end.
Proof. vm_compute. reflexivity. Qed.

(** ** Further properties of the code *)

Lemma filter_all_true {A} (p : A -> bool) (l : list A) :
  Forall (fun c => p c = true) l -> filter p l = l.
Proof. induction 1; simpl; [reflexivity|]. rewrite H, IHForall. reflexivity. Qed.

Lemma filter_forall {A} (p : A -> bool) (l : list A) :
  Forall (fun c => p c = true) (filter p l).
Proof. apply Forall_forall. intros x Hx. apply filter_In in Hx. tauto. Qed.

Lemma sanitize_user_id_safe isa (u : ustr) :
  sanitize_user_id isa u <> [] /\ Forall (fun c => safe_char isa c = true) (sanitize_user_id isa u).
Proof.
  unfold sanitize_user_id. destruct u as [|c r].
  - split; [discriminate|]. repeat constructor.
  - destruct (filter (safe_char isa) (c :: r)) as [|d l] eqn:E.
    + split; [discriminate|]. repeat constructor.
    + split; [discriminate|]. rewrite <- E. apply filter_forall.
Qed.

Lemma sanitize_user_id_fixed isa (s : ustr) :
  s <> [] -> Forall (fun c => safe_char isa c = true) s -> sanitize_user_id isa s = s.
Proof.
  intros Hne Hall. unfold sanitize_user_id. destruct s as [|c r]; [congruence|].
  rewrite (filter_all_true _ _ Hall). reflexivity.
Qed.

Lemma safe_char_not_slash isa c : safe_char isa c = true -> c <> 47%Z.
Proof. intros H ->. discriminate H. Qed.

Lemma safe_char_not_dot isa c : safe_char isa c = true -> c <> 46%Z.
Proof. intros H ->. discriminate H. Qed.

(** X1: [_sanitize_user_id] never returns an empty string, and every
    character it returns is alphanumeric ([str.isalnum], over all of
    Unicode), [-] or [_]. *)
Theorem sanitize_user_id_charset (isa : Z -> bool) (user_id : ustr) :
  sanitize_user_id isa user_id <> [] /\
  Forall (fun c => is_alnum isa c = true \/ c = 45%Z \/ c = 95%Z) (sanitize_user_id isa user_id).
Proof.
  destruct (sanitize_user_id_safe isa user_id) as [Hne Hall]. split; [exact Hne|].
  eapply Forall_impl; [|exact Hall]. intros c Hc. unfold safe_char in Hc.
  destruct (is_alnum isa c); [left; reflexivity|].
  destruct (Z.eqb_spec c 45); [right; left; assumption|].
  destruct (Z.eqb_spec c 95); [right; right; assumption|]. discriminate.
Qed.

(** X2: [_sanitize_user_id] is idempotent, and it returns a non-empty
    user id made of safe characters (alphanumeric, [-], [_]) unchanged. *)
Theorem sanitize_user_id_idempotent (isa : Z -> bool) (user_id : ustr) :
  sanitize_user_id isa (sanitize_user_id isa user_id) = sanitize_user_id isa user_id
  /\ (user_id <> [] -> Forall (fun c => safe_char isa c = true) user_id ->
      sanitize_user_id isa user_id = user_id).
Proof.
  destruct (sanitize_user_id_safe isa user_id) as [Hne Hall]. split.
  - apply sanitize_user_id_fixed; assumption.
  - apply sanitize_user_id_fixed.
Qed.

Lemma split_on_no_sep (c : Z) (s : ustr) :
  Forall (fun d => Z.eqb d c = false) s -> split_on c s = [s].
Proof.
  induction s as [|d r IH]; intros H; [reflexivity|].
  inversion H; subst. simpl. rewrite H2, IH by assumption. reflexivity.
Qed.

Lemma ustr_eqb_neq (s t : ustr) : s <> t -> ustr_eqb s t = false.
Proof. intros H. unfold ustr_eqb. destruct (list_eq_dec Z.eq_dec s t); congruence. Qed.

Lemma path_join_safe isa (p : list ustr) (s : ustr) :
  s <> [] -> Forall (fun c => safe_char isa c = true) s ->
  path_join p s = (p ++ [s])%list.
Proof.
  intros Hne Hall.
  assert (Hsl : Forall (fun d => Z.eqb d 47 = false) s).
  { eapply Forall_impl; [|exact Hall]. intros d Hd.
    apply Z.eqb_neq. exact (safe_char_not_slash isa d Hd). }
  destruct s as [|d r]; [congruence|].
  inversion Hall; subst.
  assert (Hd : d <> 47%Z) by exact (safe_char_not_slash isa d H1).
  assert (Hd' : d <> 46%Z) by exact (safe_char_not_dot isa d H1).
  assert (Hp1 : ustr_prefix (cps "/") (d :: r) = false).
  { unfold ustr_prefix. apply ustr_eqb_neq. simpl. congruence. }
  assert (Hp2 : ustr_prefix (cps "//") (d :: r) = false).
  { unfold ustr_prefix. apply ustr_eqb_neq. simpl. destruct r; simpl; congruence. }
  unfold path_join. rewrite Hp1, Hp2. unfold path_parts.
  rewrite split_on_no_sep by exact Hsl. cbn [filter].
  rewrite (ustr_eqb_neq (d :: r) []) by discriminate.
  rewrite (ustr_eqb_neq (d :: r) (cps ".")) by (simpl; congruence). reflexivity.
Qed.

Lemma user_token_paths_eq isa (tmpdir : list ustr) (u : ustr) :
  user_token_paths isa tmpdir u =
    ((tmpdir ++ [cps "pace42-garmin"; sanitize_user_id isa u; cps "tokens"])%list,
     (tmpdir ++ [cps "pace42-garmin"; sanitize_user_id isa u; cps ".garminconnect_base64"])%list).
Proof.
  destruct (sanitize_user_id_safe isa u) as [Hne Hall].
  unfold user_token_paths.
  rewrite (path_join_safe isa tmpdir (cps "pace42-garmin")); [| discriminate | repeat constructor].
  rewrite (path_join_safe isa _ (sanitize_user_id isa u)) by assumption.
  rewrite (path_join_safe isa _ (cps "tokens")); [| discriminate | repeat constructor].
  assert (Hb : forall p, path_join p (cps ".garminconnect_base64")
                         = (p ++ [cps ".garminconnect_base64"])%list)
    by reflexivity.
  rewrite Hb, <- !app_assoc. reflexivity.
Qed.

(** X3: [_get_user_token_paths] puts the token directory and the base64
    file in [<tmp>/pace42-garmin/<safe id>/], the safe id being one path
    component other than [..]; two users share a token directory exactly
    when their sanitized ids are equal. *)
Theorem user_token_paths_layout (isa : Z -> bool) (tmpdir : list ustr) (user_id other : ustr) :
  user_token_paths isa tmpdir user_id =
    ((tmpdir ++ [cps "pace42-garmin"; sanitize_user_id isa user_id; cps "tokens"])%list,
     (tmpdir ++ [cps "pace42-garmin"; sanitize_user_id isa user_id; cps ".garminconnect_base64"])%list)
  /\ sanitize_user_id isa user_id <> cps ".."
  /\ (fst (user_token_paths isa tmpdir user_id) = fst (user_token_paths isa tmpdir other)
      <-> sanitize_user_id isa user_id = sanitize_user_id isa other).
Proof.
  split; [apply user_token_paths_eq|]. split.
  - destruct (sanitize_user_id_safe isa user_id) as [_ Hall]. intros E. rewrite E in Hall.
    inversion Hall; subst. discriminate.
  - rewrite !user_token_paths_eq. simpl. split.
    + intros E. apply app_inv_head in E. congruence.
    + intros ->. reflexivity.
Qed.

Lemma clients_lookup_app (l1 l2 : list (string * garmin_client)) (k : string) :
  clients_lookup (l1 ++ l2) k =
  match clients_lookup l1 k with Some c => Some c | None => clients_lookup l2 k end.
Proof.
  induction l1 as [|[k' c'] r IH]; [reflexivity|]. simpl.
  destruct (String.eqb k k'); [reflexivity|exact IH].
Qed.

Lemma clients_lookup_delete (l : list (string * garmin_client)) (k v : string) :
  clients_lookup (clients_delete l k) v = if String.eqb v k then None else clients_lookup l v.
Proof.
  induction l as [|[k' c'] r IH]; simpl.
  - destruct (String.eqb v k); reflexivity.
  - destruct (String.eqb_spec k' k) as [->|Hne]; simpl.
    + rewrite IH. destruct (String.eqb_spec v k); reflexivity.
    + destruct (String.eqb_spec v k') as [->|Hvk'].
      * destruct (String.eqb_spec k' k); [congruence|reflexivity].
      * exact IH.
Qed.

Lemma clients_lookup_in (l : list (string * garmin_client)) (k : string) (c : garmin_client) :
  clients_lookup l k = Some c -> In (k, c) l.
Proof.
  induction l as [|[k' c'] r IH]; simpl; [discriminate|].
  destruct (String.eqb_spec k k') as [->|_]; [intros [= ->]; left; reflexivity|].
  intros H. right. exact (IH H).
Qed.


(** X4: once [get_client_for_user] has returned a client for a user, a
    later call returns the same object without changing the cache (whatever
    the configuration), and the entries of other users are unchanged. *)
Theorem get_client_for_user_cached (configured configured' : bool) (st st' : client_cache)
  (user_id : string) (c : garmin_client)
  (Hget : get_client_for_user configured st user_id = Some (c, st')) :
  get_client_for_user configured' st' user_id = Some (c, st')
  /\ (forall v, v <> user_id ->
      clients_lookup (user_clients st') v = clients_lookup (user_clients st) v).
Proof.
  unfold get_client_for_user in *.
  destruct (clients_lookup (user_clients st) user_id) as [c0|] eqn:E.
  - injection Hget as <- <-. rewrite E. split; reflexivity.
  - destruct configured; [|discriminate]. injection Hget as <- <-. cbn [user_clients].
    rewrite clients_lookup_app, E. simpl. rewrite String.eqb_refl. split; [reflexivity|].
    intros v Hv. rewrite clients_lookup_app.
    destruct (clients_lookup (user_clients st) v); [reflexivity|]. simpl.
    apply String.eqb_neq in Hv. rewrite Hv. reflexivity.
Qed.

Lemma get_client_for_user_wf (configured : bool) (st st' : client_cache) (user_id : string)
  (c : garmin_client) :
  cache_wf st -> get_client_for_user configured st user_id = Some (c, st') -> cache_wf st'.
Proof.
  unfold get_client_for_user, cache_wf. intros Hwf Hget.
  destruct (clients_lookup (user_clients st) user_id).
  - injection Hget as _ <-. exact Hwf.
  - destruct configured; [|discriminate]. injection Hget as _ <-. cbn.
    apply Forall_app. split.
    + eapply Forall_impl; [|exact Hwf]. intros kv H. simpl in H. lia.
    + repeat constructor.
Qed.

Lemma clear_client_for_user_wf (st : client_cache) (user_id : string) :
  cache_wf st -> cache_wf (clear_client_for_user st user_id).
Proof.
  unfold clear_client_for_user, cache_wf. intros Hwf.
  destruct (clients_lookup (user_clients st) user_id); [|exact Hwf]. cbn.
  apply Forall_forall. intros kv Hin. unfold clients_delete in Hin.
  apply filter_In in Hin. rewrite Forall_forall in Hwf. apply Hwf. tauto.
Qed.

(** X5: after [clear_client_for_user], the user has no cached client, and
    [get_client_for_user] creates a new object for the user, different from
    every client the cache held before; the cache invariant (every cached
    object is older than the next one created) is kept. *)
Theorem clear_client_for_user_fresh (configured : bool) (st st' : client_cache)
  (user_id : string) (c : garmin_client)
  (Hwf : cache_wf st)
  (Hget : get_client_for_user configured (clear_client_for_user st user_id) user_id = Some (c, st')) :
  clients_lookup (user_clients (clear_client_for_user st user_id)) user_id = None
  /\ (forall v c0, clients_lookup (user_clients st) v = Some c0 -> c <> c0)
  /\ client_user c = user_id
  /\ cache_wf (clear_client_for_user st user_id) /\ cache_wf st'.
Proof.
  assert (Hnext : next_serial (clear_client_for_user st user_id) = next_serial st).
  { unfold clear_client_for_user. destruct (clients_lookup _ _); reflexivity. }
  assert (Hnone : clients_lookup (user_clients (clear_client_for_user st user_id)) user_id = None).
  { unfold clear_client_for_user.
    destruct (clients_lookup (user_clients st) user_id) eqn:E; [|exact E]. cbn.
    rewrite clients_lookup_delete, String.eqb_refl. reflexivity. }
  pose proof (clear_client_for_user_wf st user_id Hwf) as Hwf'.
  split; [exact Hnone|].
  unfold get_client_for_user in Hget. rewrite Hnone in Hget.
  destruct configured; [|discriminate]. injection Hget as Hc Hst.
  split; [|split; [rewrite <- Hc; reflexivity|split; [exact Hwf'|]]].
  - intros v c0 Hv E. apply clients_lookup_in in Hv.
    unfold cache_wf in Hwf. rewrite Forall_forall in Hwf. apply Hwf in Hv. simpl in Hv.
    rewrite <- E, <- Hc, Hnext in Hv. simpl in Hv. lia.
  - rewrite <- Hst. unfold cache_wf. cbn. apply Forall_app. split.
    + eapply Forall_impl; [|exact Hwf']. intros kv H. simpl in H. lia.
    + repeat constructor.
Qed.

Lemma recent_turn_lines_ok repr msgs lines :
  recent_turn_lines repr msgs = Ok lines ->
  (length lines <= length msgs)%nat /\ Forall turn_line_ok lines.
Proof.
  revert lines. induction msgs as [|msg r IH]; intros lines H.
  - injection H as <-. split; [simpl; lia|constructor].
  - simpl in H. destruct (py_get msg "role" (PStr "user")) as [role|e]; [|discriminate].
    destruct (py_get msg "content" (PStr "")) as [content0|e]; cbn [bind] in H; [|discriminate].
    destruct (String.eqb (str_slice 220 (py_str repr content0)) "") eqn:Ec; cbn [bind] in H.
    + destruct (recent_turn_lines repr r) as [rest|e]; [|discriminate]. cbn [bind] in H.
      injection H as <-. destruct (IH rest eq_refl) as [Hl Hf]. split; [simpl; lia|exact Hf].
    + destruct (py_title_of role) as [t|e]; cbn [bind] in H; [|discriminate].
      destruct (recent_turn_lines repr r) as [rest|e]; [|discriminate]. cbn [bind] in H.
      injection H as <-. destruct (IH rest eq_refl) as [Hl Hf]. split; [simpl; lia|].
      constructor; [|exact Hf].
      exists t, (str_slice 220 (py_str repr content0)). split; [reflexivity|].
      split.
      * destruct (str_slice 220 (py_str repr content0)); [discriminate|simpl; lia].
      * apply substring_length_le.
Qed.

(** X6: [_format_recent_turns] returns at most 6 lines, each a role,
    [: ] and 1 to 220 characters of content; without a non-empty
    [recent_messages] list it returns no line. *)
Theorem format_recent_turns_bounds (repr : pyval -> string) (context : option dict)
  (lines : list string)
  (H : format_recent_turns repr context = Ok lines) :
  (length lines <= 6)%nat /\ Forall turn_line_ok lines
  /\ (has_recent_messages context = false -> lines = []).
Proof.
  unfold format_recent_turns, has_recent_messages in *.
  destruct (ctx_truthy context) as [c|]; [|injection H as <-; repeat split; [simpl; lia|constructor]].
  destruct (dict_get c "recent_messages" PNone) as [| | | | |[|m ms]|];
    try (injection H as <-; repeat split; [simpl; lia|constructor]).
  destruct (recent_turn_lines_ok repr _ _ H) as [Hl Hf].
  unfold last_n in Hl. rewrite length_skipn in Hl.
  repeat split; [lia|exact Hf|discriminate].
Qed.

Lemma last_n_app {A} (n : nat) (pre l : list A) :
  (n <= length l)%nat -> last_n n (pre ++ l) = last_n n l.
Proof.
  intros Hn. unfold last_n. rewrite length_app, skipn_app.
  rewrite (skipn_all2 pre) by lia. simpl. f_equal. lia.
Qed.

Lemma dict_set_nonempty d k v : exists kv r, dict_set d k v = kv :: r.
Proof. destruct d as [|[k' v'] r]; simpl; [eauto|]. destruct (String.eqb k k'); eauto. Qed.

(** X7: [_format_recent_turns] reads only the last 6 messages: messages
    before them do not change the result. *)
Theorem format_recent_turns_last_six (repr : pyval -> string) (c : dict) (pre msgs : list pyval)
  (Hsix : (6 <= length msgs)%nat) :
  format_recent_turns repr (Some (dict_set c "recent_messages" (PList (pre ++ msgs))))
  = format_recent_turns repr (Some (dict_set c "recent_messages" (PList msgs))).
Proof.
  unfold format_recent_turns, ctx_truthy.
  destruct (dict_set_nonempty c "recent_messages" (PList (pre ++ msgs))) as [kv1 [r1 E1]].
  destruct (dict_set_nonempty c "recent_messages" (PList msgs)) as [kv2 [r2 E2]].
  rewrite E1, E2, <- E1, <- E2, !dict_get_set_same.
  destruct msgs as [|m ms]; [simpl in Hsix; lia|].
  destruct (pre ++ m :: ms)%list eqn:Ea; [destruct pre; discriminate|].
  rewrite <- Ea, last_n_app by exact Hsix. reflexivity.
Qed.

Lemma int_true_div_cases x y :
  y <> 0%Z -> (exists f, int_true_div x y = Ok f) \/ int_true_div x y = Exc OverflowError.
Proof.
  intros Hy. unfold int_true_div.
  destruct (y =? 0)%Z eqn:E; [apply Z.eqb_eq in E; contradiction|].
  destruct (x =? 0)%Z; [left; eexists; reflexivity|].
  destruct (SFdiv_core_binary _ _ _ _ _ _) as [[m e] l].
  destruct (binary_round_aux _ _ _ _ _ _); eauto.
Qed.

Lemma py_div_int_cases x y :
  y <> 0%Z -> (exists f, py_div (PInt x) (PInt y) = Ok (PFloat f))
              \/ py_div (PInt x) (PInt y) = Exc OverflowError.
Proof.
  intros Hy. unfold py_div. cbn [py_number].
  destruct (int_true_div_cases x y Hy) as [[f E]|E]; rewrite E; [left; exists f|right]; reflexivity.
Qed.

Lemma py_mul_float_100 f : exists r, py_mul (PFloat f) (PInt 100) = Ok r.
Proof. eexists. reflexivity. Qed.

Lemma hr_zone_loop_int (zs : list dict) (secs : list Z) :
  Forall2 (fun z s => dict_get z "secsInZone" (PInt 0) = PInt s) zs secs ->
  forall zones acc,
    (exists new,
       hr_zone_loop zones (PInt acc) (map PDict zs) = Ok ((zones ++ new)%list, PInt (acc + sumZ secs))
       /\ Forall2 (fun z s => dict_get z "time_seconds" PNone = PInt s
                              /\ dict_get z "percentage" PNone = PInt 0) new secs)
    \/ hr_zone_loop zones (PInt acc) (map PDict zs) = Exc OverflowError.
Proof.
  induction 1 as [|z s zr sr Hz Hr IH]; intros zones acc.
  - left. exists []. rewrite app_nil_r, Z.add_0_r. split; [reflexivity|constructor].
  - cbn [map hr_zone_loop py_get bind]. rewrite Hz.
    destruct (py_div_int_cases s 60 ltac:(discriminate)) as [[f Ef]|Ef]; rewrite Ef; cbn [bind];
      [|right; reflexivity].
    unfold py_add, py_arith. cbn [py_number bind].
    match goal with |- context [hr_zone_loop ?zs' _ _] =>
      destruct (IH zs' (acc + s)%Z) as [[new [Hl Hf]]|Hl] end; rewrite Hl; [left|right; reflexivity].
    eexists. rewrite <- app_assoc. split.
    + cbn [sumZ fold_right]. rewrite Z.add_assoc. reflexivity.
    + constructor; [split; reflexivity|exact Hf].
Qed.

Lemma set_percentages_int (T : Z) (zs : list dict) (secs : list Z) :
  T <> 0%Z ->
  Forall2 (fun z s => dict_get z "time_seconds" PNone = PInt s) zs secs ->
  (exists zs', set_percentages (PInt T) zs = Ok zs'
     /\ Forall2 (fun z s => dict_get z "time_seconds" PNone = PInt s
                            /\ exists p, py_div (PInt s) (PInt T) = Ok p
                                         /\ py_mul p (PInt 100) = Ok (dict_get z "percentage" PNone))
                zs' secs)
  \/ set_percentages (PInt T) zs = Exc OverflowError.
Proof.
  intros HT. induction 1 as [|z s zr sr Hz Hr IH].
  - left. exists []. split; [reflexivity|constructor].
  - cbn [set_percentages]. rewrite Hz.
    destruct (py_div_int_cases s T HT) as [[f Ef]|Ef]; rewrite Ef; cbn [bind]; [|right; reflexivity].
    destruct (py_mul_float_100 f) as [r Er]. rewrite Er. cbn [bind].
    destruct IH as [[zs' [Hs Hf]]|Hs]; rewrite Hs; cbn [bind]; [left|right; reflexivity].
    eexists. split; [reflexivity|]. constructor; [|exact Hf]. split.
    + rewrite dict_get_set_other by discriminate. exact Hz.
    + exists (PFloat f). split; [exact Ef|]. rewrite dict_get_set_same. exact Er.
Qed.

(** X8: [normalize_hr_zones] on a non-empty list of zone dicts whose
    [secsInZone] are ints either raises [OverflowError] (a float division
    out of range) or returns the zones, the int total of the seconds, the
    minutes [total / 60], and [has_complete_data] exactly for 5 zones or
    more; each zone keeps its seconds, and its percentage is
    [(seconds / total) * 100] computed in floats when the total is positive,
    and stays the int 0 otherwise. *)
Theorem normalize_hr_zones_totals (zs : list dict) (secs : list Z)
  (Hne : zs <> [])
  (Hsecs : Forall2 (fun z s => dict_get z "secsInZone" (PInt 0) = PInt s) zs secs) :
  normalize_hr_zones (PList (map PDict zs)) = Exc OverflowError
  \/ exists zones tmin,
       normalize_hr_zones (PList (map PDict zs)) =
         Ok (PDict [("zones", PList (map PDict zones)); ("total_time_s", PInt (sumZ secs));
                    ("total_time_min", tmin);
                    ("has_complete_data", PBool (Nat.leb 5 (length zs)))])
       /\ py_div (PInt (sumZ secs)) (PInt 60) = Ok tmin
       /\ ((0 < sumZ secs)%Z ->
           Forall2 (fun z s => dict_get z "time_seconds" PNone = PInt s
                               /\ exists p, py_div (PInt s) (PInt (sumZ secs)) = Ok p
                                            /\ py_mul p (PInt 100) = Ok (dict_get z "percentage" PNone))
                   zones secs)
       /\ ((sumZ secs <= 0)%Z ->
           Forall2 (fun z s => dict_get z "time_seconds" PNone = PInt s
                               /\ dict_get z "percentage" PNone = PInt 0) zones secs).
Proof.
  pose proof (Forall2_length Hsecs) as Hlz.
  unfold normalize_hr_zones.
  destruct zs as [|z0 zr]; [congruence|]. cbn [truthy map negb py_iter bind].
  change (PDict z0 :: map PDict zr) with (map PDict (z0 :: zr)).
  destruct (hr_zone_loop_int _ _ Hsecs [] 0) as [[new [Hl Hf]]|Hl]; rewrite Hl; cbn [bind];
    [|left; reflexivity].
  rewrite Z.add_0_l. cbn [app]. unfold py_gt0. cbn [py_number bind].
  pose proof (Forall2_length Hf) as Hln.
  destruct (0 <? sumZ secs)%Z eqn:Hp; cbn [bind].
  - apply Z.ltb_lt in Hp.
    assert (HT : sumZ secs <> 0%Z) by lia.
    assert (Hf' : Forall2 (fun z s => dict_get z "time_seconds" PNone = PInt s) new secs)
      by (eapply Forall2_impl; [|exact Hf]; intros a b [H _]; exact H).
    destruct (set_percentages_int _ _ _ HT Hf') as [[zs' [Hs Hz']]|Hs]; rewrite Hs; cbn [bind];
      [|left; reflexivity].
    destruct (py_div_int_cases (sumZ secs) 60 ltac:(discriminate)) as [[g Eg]|Eg]; rewrite Eg;
      cbn [bind]; [right|left; reflexivity].
    exists zs', (PFloat g).
    rewrite (Forall2_length Hz'), <- Hlz. split; [reflexivity|]. split; [reflexivity|].
    split; [intros _; exact Hz'|intros Hn; lia].
  - apply Z.ltb_ge in Hp.
    destruct (py_div_int_cases (sumZ secs) 60 ltac:(discriminate)) as [[g Eg]|Eg]; rewrite Eg;
      cbn [bind]; [right|left; reflexivity].
    exists new, (PFloat g).
    rewrite Hln, <- Hlz. split; [reflexivity|]. split; [reflexivity|].
    split; [intros Hn; lia|intros _; exact Hf].
Qed.

Lemma normalize_lap_number i d v :
  normalize_lap i d = Ok v -> field v "lap_number" = PInt (Z.of_nat i).
Proof.
  unfold normalize_lap. intros H.
  repeat match type of H with
         | context [bind ?m _] =>
             let E := fresh "E" in destruct m eqn:E; cbn [bind] in H; [|discriminate]
         | context [if ?b then _ else _] => destruct b
         end;
  injection H as <-; reflexivity.
Qed.

Lemma normalize_laps_from_numbers json i laps out :
  normalize_laps_from json i laps = Ok out ->
  map (fun l => field l "lap_number") out
  = map (fun k => PInt (Z.of_nat k))
        (filter (fun k => lap_resolves json (nth (k - i) laps PNone)) (seq i (length laps))).
Proof.
  revert i out. induction laps as [|lap r IH]; intros i out H.
  - injection H as <-. reflexivity.
  - cbn [length seq filter].
    assert (Htail : filter (fun k => lap_resolves json (nth (k - i) (lap :: r) PNone)) (seq (S i) (length r))
                    = filter (fun k => lap_resolves json (nth (k - S i) r PNone)) (seq (S i) (length r))).
    { apply filter_ext_in. intros k Hk. apply in_seq in Hk.
      replace (k - i)%nat with (S (k - S i)) by lia. reflexivity. }
    rewrite Htail, Nat.sub_diag. change (nth 0 (lap :: r) PNone) with lap. simpl in H. unfold lap_resolves at 1.
    destruct (match lap with PStr s => json s | _ => Some lap end) as [[| | | | | |d]|];
      try (apply IH; exact H).
    destruct (normalize_lap i d) as [nl|e] eqn:En; cbn [bind] in H; [|discriminate].
    destruct (normalize_laps_from json (S i) r) as [rest|e] eqn:Er; cbn [bind] in H; [|discriminate].
    injection H as <-. cbn [map]. rewrite (normalize_lap_number _ _ _ En), (IH _ _ Er). reflexivity.
Qed.

(** X11: the laps of [_normalize_laps] are numbered with the 1-based
    positions, in the raw list, of the entries that are dicts or strings
    decoding to a dict: entries that are dropped still use up a number. *)
Theorem normalize_laps_numbering (json_loads : string -> option pyval) (laps out : list pyval)
  (H : normalize_laps json_loads laps = Ok out) :
  map (fun l => field l "lap_number") out
  = map (fun k => PInt (Z.of_nat k))
        (filter (fun k => lap_resolves json_loads (nth (k - 1) laps PNone)) (seq 1 (length laps))).
Proof. exact (normalize_laps_from_numbers json_loads 1 laps out H). Qed.

Lemma gather_single_calls json tool aid log :
  exists ad1 cs, gather_single_activity_data json tool aid log = (Ok ad1, (log ++ cs)%list)
    /\ (1 <= length cs <= 4)%nat
    /\ Forall (fun c => In c (activity_fetches aid)) cs.
Proof.
  unfold gather_single_activity_data, fetch_into, mret.
  destruct (tool (GetActivityDetails aid) log) as [v1|e1];
    [destruct (tool (GetActivitySplits aid) _) as [v2|e2];
     [destruct (tool (GetActivityHrZones aid) _) as [v3|e3];
      [destruct (tool (GetActivityWeather aid) _) as [v4|e4]|]|]|];
    eexists; eexists; (split; [rewrite <- ?app_assoc; reflexivity|]);
    (split; [simpl; lia|]);
    repeat (apply Forall_cons; [unfold activity_fetches; simpl; tauto|]); apply Forall_nil.
Qed.

Lemma process_activity_calls json tool aid log :
  exists ad cs, process_activity json tool aid log = (Ok ad, (log ++ cs)%list)
    /\ (1 <= length cs <= 5)%nat
    /\ Forall (fun c => In c (activity_fetches aid)) cs
    /\ dict_get ad "activity_id" PNone = aid.
Proof.
  destruct (gather_single_calls json tool aid log) as [ad1 [cs [Hg [Hl Hc]]]].
  destruct (gather_single_shape json tool aid log) as [ad1' [log1 [Hg' [[b Hb] [_ Hid]]]]].
  rewrite Hg in Hg'. injection Hg' as <- <-.
  unfold process_activity, mbind. rewrite Hg, Hb.
  destruct b; [|exists ad1, cs; split; [reflexivity|split; [lia|split; assumption]]].
  unfold correct_incomplete_data.
  destruct (negb (truthy (dict_get ad1 "raw_splits" PNone)));
    [|exists ad1, cs; split; [reflexivity|split; [lia|split; assumption]]].
  assert (Hc' : Forall (fun c => In c (activity_fetches aid)) (cs ++ [GetActivitySplits aid])%list).
  { apply Forall_app. split; [exact Hc|]. constructor; [simpl; tauto|constructor]. }
  destruct (tool (GetActivitySplits aid) (log ++ cs)%list) as [v|e].
  - eexists; exists (cs ++ [GetActivitySplits aid])%list.
    split; [rewrite app_assoc; reflexivity|]. rewrite length_app. split; [simpl; lia|].
    split; [exact Hc'|].
    destruct (renormalize_keys json (dict_set ad1 "raw_splits" v) "activity_id" PNone)
      as [_ Hk]; try discriminate.
    rewrite Hk, dict_get_set_other by discriminate. exact Hid.
  - exists ad1, (cs ++ [GetActivitySplits aid])%list.
    split; [rewrite app_assoc; reflexivity|]. rewrite length_app. split; [simpl; lia|].
    split; [exact Hc'|exact Hid].
Qed.

Lemma gather_loop_calls json tool num items :
  forall processed acts log,
  exists new blocks e,
    gather_loop json tool num processed acts items log
      = (Ok ((acts ++ new)%list, e), (log ++ concat blocks)%list)
    /\ Forall2 activity_block_ok blocks new
    /\ (Z.of_nat (length new) <= Z.max 0 (num - processed))%Z.
Proof.
  induction items as [|it r IH]; intros processed acts log.
  - exists [], [], None. rewrite !app_nil_r. split; [reflexivity|]. split; [constructor|simpl; lia].
  - cbn [gather_loop]. destruct (num <=? processed)%Z eqn:Hn.
    + exists [], [], None. rewrite !app_nil_r. split; [reflexivity|]. split; [constructor|simpl; lia].
    + apply Z.leb_gt in Hn.
      destruct (py_get it "activityId" PNone) as [aid|e].
      * destruct (negb (truthy aid)).
        -- destruct (IH processed acts log) as [new [blocks [e [H1 [H2 H3]]]]].
           exists new, blocks, e. split; [exact H1|]. split; [exact H2|]. lia.
        -- destruct (process_activity_calls json tool aid log) as [ad [cs1 [Hp [Hl [Hc Hid]]]]].
           rewrite Hp.
           destruct (IH (processed + 1)%Z (acts ++ [PDict ad])%list (log ++ cs1)%list)
             as [new [blocks [e [H1 [H2 H3]]]]].
           exists (PDict ad :: new), (cs1 :: blocks), e.
           rewrite H1, <- !app_assoc. split; [reflexivity|]. split.
           ++ constructor; [|exact H2]. exists ad. split; [reflexivity|].
              split; [exact Hl|]. rewrite Hid. exact Hc.
           ++ simpl length. lia.
      * exists [], [], (Some e). rewrite !app_nil_r. split; [reflexivity|]. split; [constructor|simpl; lia].
Qed.

(** X12: [gather_data] never raises; its calls are the listing call, then
    one block of calls per activity it returns: each block has 1 to 5 calls,
    all fetches for that activity's id; it returns at most
    [num_activities] activities. *)
Theorem gather_data_call_bounds json tool user_request scope num log :
  exists out blocks,
    gather_data json tool user_request scope num log
      = (Ok out, (log ++ ListActivities "running" (num * 5) :: concat blocks)%list)
    /\ Forall2 activity_block_ok blocks (activities_of out)
    /\ (length (activities_of out) <= Z.to_nat num)%nat.
Proof.
  unfold gather_data, get_activities, mbind, mcall.
  destruct (tool (ListActivities "running" (num * 5)) log) as [v|e];
    [|exists (dict_set [("activities", PList []); ("request", PStr user_request); ("scope", PStr scope)]
                 "error" (PStr (exn_message e))), [];
      split; [reflexivity|]; unfold activities_of;
      rewrite dict_get_set_other by discriminate; split; [constructor|simpl; lia]].
  assert (Hv : exists items,
    (match v with
     | PStr text => mret (map (fun i => PDict [("activityId", PStr i)]) (listed_ids "running" text))
     | _ => mret []
     end) = @mret (list pyval) items) by (destruct v; eexists; reflexivity).
  destruct Hv as [items Hv]. rewrite Hv. unfold mret. destruct items as [|it r].
  - exists [("activities", PList []); ("request", PStr user_request); ("scope", PStr scope)], [].
    split; [reflexivity|]. split; [constructor|simpl; lia].
  - destruct (gather_loop_calls json tool num (it :: r) 0 [] (log ++ [ListActivities "running" (num * 5)])%list)
      as [new [blocks [e [H1 [H2 H3]]]]].
    rewrite H1. cbn [app]. rewrite <- app_assoc. cbn [app].
    destruct e; (eexists; exists blocks; split; [reflexivity|]); unfold activities_of;
      rewrite ?dict_get_set_other by discriminate; rewrite dict_get_set_same; split; [exact H2|lia| exact H2|lia].
Qed.

(** X13: with a non-empty [recent_messages] list, [_detect_follow_up]
    holds for a question of at most 6 words, one that starts with a
    follow-up starter or one that contains a follow-up token; a question of
    more than 10 words with neither is never a follow-up. *)
Theorem detect_follow_up_rules (question : string) (context : option dict)
  (H : has_recent_messages context = true) :
  let lower_q := py_strip (py_lower question) in
  ((length (py_split lower_q) <= 6)%nat -> detect_follow_up question context = true)
  /\ (forall st, In st followup_starters -> String.prefix st lower_q = true ->
      detect_follow_up question context = true)
  /\ (any_in followup_tokens lower_q = true -> detect_follow_up question context = true)
  /\ ((10 < length (py_split lower_q))%nat
      -> existsb (fun st => String.prefix st lower_q) followup_starters = false
      -> any_in followup_tokens lower_q = false
      -> detect_follow_up question context = false).
Proof.
  intros lower_q. unfold has_recent_messages in H. unfold detect_follow_up.
  destruct (ctx_truthy context) as [c|]; [|discriminate].
  destruct (dict_get c "recent_messages" PNone) as [| | | | |[|m ms]|]; try discriminate.
  fold lower_q. split; [|split; [|split]].
  - intros Hs. destruct (existsb _ _); [reflexivity|].
    apply Nat.leb_le in Hs. rewrite Hs. reflexivity.
  - intros st Hin Hp.
    assert (E : existsb (fun st => String.prefix st lower_q) followup_starters = true)
      by (apply existsb_exists; exists st; split; assumption).
    rewrite E. reflexivity.
  - intros Ht. destruct (existsb _ _); [reflexivity|].
    destruct (Nat.leb _ 6); [reflexivity|]. rewrite Ht. reflexivity.
  - intros Hl Hs Ht. rewrite Hs.
    assert (E6 : Nat.leb (length (py_split lower_q)) 6 = false) by (apply Nat.leb_gt; lia).
    assert (E10 : Nat.leb (length (py_split lower_q)) 10 = false) by (apply Nat.leb_gt; lia).
    rewrite E6, Ht, E10. destruct (_ || _); reflexivity.
Qed.







Lemma resolve_raw_dict json d :
  d <> [] -> dict_has d "raw_text" = false -> resolve_raw json (PDict d) = Ok (Some d).
Proof.
  intros Hd Hr. unfold resolve_raw. destruct d as [|kv r]; [congruence|].
  cbn [truthy negb]. rewrite Hr. reflexivity.
Qed.

(** X17: when [raw_splits] is truthy and [raw_activity] is a dict,
    [_normalize_activity_data] stores the splits as [splits_data] in the
    record's own [raw_activity] dict; when that dict has no [raw_text] and
    the normalization succeeds, the laps of the normalized activity are the
    laps [normalize_activity] computes from the summary of the details and
    the splits read from [raw_splits]. *)
Theorem normalize_activity_data_splits_first (json_loads : string -> option pyval)
  (ad ra : dict)
  (Hhas : dict_has ad "raw_activity" = true)
  (Hra : dict_get ad "raw_activity" (PDict []) = PDict ra)
  (Hrs : truthy (dict_get ad "raw_splits" (PDict [])) = true)
  (Hrt : dict_has ra "raw_text" = false) :
  dict_get (fst (normalize_activity_data json_loads ad)) "raw_activity" PNone
    = PDict (dict_set ra "splits_data" (dict_get ad "raw_splits" (PDict [])))
  /\ (snd (normalize_activity_data json_loads ad) <> PNone ->
      exists dk dm laps,
        activity_totals json_loads (dict_get (activity_summary ra) "distance" (PInt 0))
          (dict_get (activity_summary ra) "duration" (PInt 0))
          (get_splits_safely json_loads (dict_get ad "raw_splits" (PDict [])))
        = Ok (dk, dm, laps)
        /\ field (field (snd (normalize_activity_data json_loads ad)) "activity") "laps" = PList laps).
Proof.
  unfold normalize_activity_data. rewrite Hrs, Hra, Hhas.
  set (rs := dict_get ad "raw_splits" (PDict [])) in *.
  set (ra' := dict_set ra "splits_data" rs).
  split.
  - destruct (_ <- _ ;; _); simpl; apply dict_get_set_same.
  - intros Hn.
    destruct (normalize_activity json_loads (PDict ra')) as [na|e] eqn:Ena; cbn [bind] in *;
      [|exfalso; exact (Hn eq_refl)].
    destruct (normalize_hr_zones _) as [nh|e]; cbn [bind] in *; [|exfalso; exact (Hn eq_refl)].
    destruct (normalize_weather _) as [nw|e]; cbn [bind] in *; [|exfalso; exact (Hn eq_refl)].
    cbn [snd field dict_get String.eqb fst].
    assert (Hne : ra' <> []).
    { destruct (dict_set_nonempty ra "splits_data" rs) as [kv [r E]]. unfold ra'. rewrite E. discriminate. }
    assert (Hrt' : dict_has ra' "raw_text" = false)
      by (unfold ra'; rewrite dict_has_set_other by discriminate; exact Hrt).
    unfold normalize_activity in Ena. rewrite (resolve_raw_dict json_loads ra' Hne Hrt') in Ena.
    cbn [bind] in Ena.
    destruct (normalize_dict_fields _ _ _ Ena) as [dk [dm [laps [pace [speed [Ht [_ [_ [_ [Hl _]]]]]]]]]].
    exists dk, dm, laps. split; [|exact Hl].
    assert (Hs : activity_summary ra' = activity_summary ra)
      by (unfold activity_summary, ra'; rewrite dict_get_set_other by discriminate; reflexivity).
    assert (Hsp : activity_splits json_loads ra' = get_splits_safely json_loads rs)
      by (unfold activity_splits, ra'; rewrite dict_get_set_same, Hrs; reflexivity).
    rewrite <- Hs, <- Hsp. exact Ht.
Qed.

(** X18: [normalize_activity] gives the same result for a non-empty
    activity dict without [raw_text], for a JSON text of it, and for any
    dict whose [raw_text] is that text. *)
Theorem normalize_activity_encodings (json_loads : string -> option pyval) (s : string) (d : dict)
  (Hs : json_loads s = Some (PDict d))
  (Hs0 : s <> "")
  (Hd : d <> [])
  (Hr : dict_has d "raw_text" = false) :
  normalize_activity json_loads (PStr s) = normalize_dict json_loads d
  /\ normalize_activity json_loads (PDict d) = normalize_dict json_loads d
  /\ (forall w, dict_has w "raw_text" = true -> dict_get w "raw_text" PNone = PStr s ->
      normalize_activity json_loads (PDict w) = normalize_dict json_loads d).
Proof.
  split; [|split].
  - unfold normalize_activity, resolve_raw. cbn [truthy].
    apply String.eqb_neq in Hs0. rewrite Hs0. cbn [negb]. rewrite Hs, Hr. reflexivity.
  - unfold normalize_activity. rewrite resolve_raw_dict by assumption. reflexivity.
  - intros w Hw Hg. unfold normalize_activity, resolve_raw.
    destruct w as [|kv r]; [discriminate|]. cbn [truthy negb].
    rewrite Hw, Hg. cbn [loads]. rewrite Hs. reflexivity.
Qed.

(** X19: an empty dict is normalized to the empty activity (name
    [Unknown]), but a JSON text of an empty object is normalized as an
    activity named [Unnamed Run]. *)
Theorem normalize_activity_empty_object_text (json_loads : string -> option pyval) (s : string)
  (Hs : json_loads s = Some (PDict []))
  (Hs0 : s <> "") :
  normalize_activity json_loads (PDict []) = Ok empty_activity
  /\ exists out, normalize_activity json_loads (PStr s) = Ok out
     /\ field out "name" = PStr "Unnamed Run"
     /\ field empty_activity "name" = PStr "Unknown".
Proof.
  split; [reflexivity|].
  unfold normalize_activity, resolve_raw. cbn [truthy].
  apply String.eqb_neq in Hs0. rewrite Hs0. cbn [negb]. rewrite Hs.
  eexists. split; [reflexivity|]. split; reflexivity.
Qed.

(** X20: [_gather_single_activity_data] makes its four fetches in order
    and stops at the first one that raises: the record then has [error] set
    to the message of that exception and is not normalized; if no fetch
    raises, the record has no [error] key. *)
Theorem gather_single_stops_at_first_error json tool aid log :
  exists ad n,
    gather_single_activity_data json tool aid log
      = (Ok ad, (log ++ firstn n (activity_fetches aid))%list)
    /\ (1 <= n <= 4)%nat
    /\ (forall k, (k < n - 1)%nat ->
        exists v, tool (nth k (activity_fetches aid) (GetActivityDetails aid))
                       (log ++ firstn k (activity_fetches aid))%list = Ok v)
    /\ ((exists e, tool (nth (n - 1) (activity_fetches aid) (GetActivityDetails aid))
                        (log ++ firstn (n - 1) (activity_fetches aid))%list = Exc e
                   /\ dict_get ad "error" PNone = PStr (exn_message e)
                   /\ dict_get ad "normalized" PNone = PNone)
        \/ (n = 4%nat
            /\ (exists v, tool (GetActivityWeather aid) (log ++ firstn 3 (activity_fetches aid))%list = Ok v)
            /\ dict_has ad "error" = false)).
Proof.
  unfold gather_single_activity_data, fetch_into, mret, activity_fetches.
  destruct (tool (GetActivityDetails aid) log) as [v1|e1] eqn:E1.
  2:{ do 2 eexists. split; [rewrite ?app_assoc; instantiate (1 := 1%nat); reflexivity|].
      split; [lia|]. split; [intros k Hk; lia|].
      left. exists e1. rewrite app_nil_r. split; [exact E1|split; reflexivity]. }
  destruct (tool (GetActivitySplits aid) (log ++ [GetActivityDetails aid])%list) as [v2|e2] eqn:E2.
  2:{ do 2 eexists. split; [rewrite <- !app_assoc; instantiate (1 := 2%nat); reflexivity|].
      split; [lia|]. split.
      - intros k Hk. destruct k; [|lia]. exists v1. rewrite app_nil_r. exact E1.
      - left. exists e2. split; [exact E2|split; reflexivity]. }
  destruct (tool (GetActivityHrZones aid) ((log ++ [GetActivityDetails aid]) ++ [GetActivitySplits aid])%list)
    as [v3|e3] eqn:E3.
  2:{ do 2 eexists. split; [rewrite <- !app_assoc; instantiate (1 := 3%nat); reflexivity|].
      split; [lia|]. split.
      - intros k Hk. destruct k as [|[|k]]; [| |lia].
        + exists v1. rewrite app_nil_r. exact E1.
        + exists v2. exact E2.
      - left. exists e3. rewrite <- app_assoc in E3. split; [exact E3|split; reflexivity]. }
  destruct (tool (GetActivityWeather aid)
                 (((log ++ [GetActivityDetails aid]) ++ [GetActivitySplits aid]) ++ [GetActivityHrZones aid])%list)
    as [v4|e4] eqn:E4.
  - do 2 eexists. split; [rewrite <- !app_assoc; instantiate (1 := 4%nat); reflexivity|].
    split; [lia|]. split.
    + intros k Hk. destruct k as [|[|[|k]]]; [| | |lia].
      * exists v1. rewrite app_nil_r. exact E1.
      * exists v2. exact E2.
      * exists v3. rewrite <- app_assoc in E3. exact E3.
    + right. split; [reflexivity|]. split.
      * exists v4. rewrite <- !app_assoc in E4. exact E4.
      * destruct (renormalize_keys json
                   (dict_set (dict_set (dict_set (dict_set
                      [("activity_id", aid); ("raw_activity", PNone); ("raw_splits", PNone);
                       ("raw_hr_zones", PNone); ("raw_weather", PNone); ("normalized", PNone)]
                      "raw_activity" v1) "raw_splits" v2) "raw_hr_zones" v3) "raw_weather" v4)
                   "error" PNone) as [Hh _]; try discriminate.
        rewrite Hh. reflexivity.
  - do 2 eexists. split; [rewrite <- !app_assoc; instantiate (1 := 4%nat); reflexivity|].
    split; [lia|]. split.
    + intros k Hk. destruct k as [|[|[|k]]]; [| | |lia].
      * exists v1. rewrite app_nil_r. exact E1.
      * exists v2. exact E2.
      * exists v3. rewrite <- app_assoc in E3. exact E3.
    + left. exists e4. rewrite <- !app_assoc in E4. split; [exact E4|split; reflexivity].
Qed.

Lemma path_eqb_true p q : path_eqb p q = true -> p = q.
Proof. unfold path_eqb. destruct (list_eq_dec (list_eq_dec Z.eq_dec) p q); congruence. Qed.

Lemma firstn_length_app {A} (base x : list A) :
  firstn (length base) (base ++ x) = base.
Proof. rewrite firstn_app, firstn_all, Nat.sub_diag. apply app_nil_r. Qed.

Lemma firstn_prefix_app {A} (base x p : list A) :
  firstn (length (base ++ x)) p = (base ++ x)%list -> firstn (length base) p = base.
Proof.
  intros H. rewrite <- (firstn_length_app base x) at 2. rewrite <- H.
  rewrite firstn_firstn, length_app. f_equal. lia.
Qed.

Lemma fs_remove_keeps (f : fs) (p : list ustr) e :
  In e f -> fst e <> p -> In e (fs_remove f p).
Proof.
  intros Hin Hne. apply filter_In. split; [exact Hin|].
  destruct (path_eqb (fst e) p) eqn:E; [apply path_eqb_true in E; congruence|reflexivity].
Qed.

Lemma fs_remove_sub (f : fs) (p : list ustr) e : In e (fs_remove f p) -> In e f.
Proof. intros H. apply filter_In in H. tauto. Qed.

Lemma clear_token_dir_spec (base : list ustr) (f : fs) e :
  (In e f -> firstn (length base) (fst e) <> base -> In e (clear_token_dir (base ++ [cps "tokens"]) f))
  /\ (In e (clear_token_dir (base ++ [cps "tokens"]) f) -> In e f).
Proof.
  set (td := (base ++ [cps "tokens"])%list).
  assert (Hch : forall p, is_child td p = true -> firstn (length base) p = base).
  { intros p H. apply andb_prop in H as [_ H]. apply path_eqb_true in H.
    exact (firstn_prefix_app base [cps "tokens"] p H). }
  assert (Htd : firstn (length base) td = base) by (unfold td; apply firstn_length_app).
  assert (Hkeep1 : In e f -> firstn (length base) (fst e) <> base ->
                   In e (filter (fun e => negb (is_child td (fst e) && negb (snd e))) f)).
  { intros Hin Hne. apply filter_In. split; [exact Hin|].
    destruct (is_child td (fst e)) eqn:E; [exfalso; exact (Hne (Hch _ E))|reflexivity]. }
  unfold clear_token_dir. fold td. destruct (fs_lookup f td) as [is_dir|]; [|tauto].
  split.
  - intros Hin Hne. specialize (Hkeep1 Hin Hne).
    destruct (is_dir && _); [|exact Hkeep1].
    apply fs_remove_keeps; [exact Hkeep1|]. intros E. rewrite E in Hne. exact (Hne Htd).
  - intros Hin. destruct (is_dir && _); [apply fs_remove_sub in Hin|];
      apply filter_In in Hin; tauto.
Qed.

(** X21: [clear_token_store_for_user] removes no entry outside the user's
    own directory [<tmp>/pace42-garmin/<sanitized id>]: every entry of the
    file system after the call was there before, and every entry whose path
    does not start with that directory is still there. *)
Theorem clear_token_store_for_user_scope (isa : Z -> bool) (tmpdir : list ustr) (user_id : ustr) (f : fs) :
  let base := (tmpdir ++ [cps "pace42-garmin"; sanitize_user_id isa user_id])%list in
  (forall e, In e (clear_token_store_for_user isa tmpdir user_id f) -> In e f)
  /\ (forall e, In e f -> firstn (length base) (fst e) <> base ->
      In e (clear_token_store_for_user isa tmpdir user_id f)).
Proof.
  intros base.
  assert (Hp : user_token_paths isa tmpdir user_id =
               ((base ++ [cps "tokens"])%list, (base ++ [cps ".garminconnect_base64"])%list)).
  { rewrite user_token_paths_eq. unfold base. rewrite <- !app_assoc. reflexivity. }
  unfold clear_token_store_for_user. rewrite Hp.
  destruct (fs_lookup f (base ++ [cps ".garminconnect_base64"])) as [[|]|].
  - split; intros e; tauto.
  - split.
    + intros e Hin. apply (proj2 (clear_token_dir_spec base _ e)) in Hin.
      exact (fs_remove_sub _ _ _ Hin).
    + intros e Hin Hne. apply (proj1 (clear_token_dir_spec base _ e)); [|exact Hne].
      apply fs_remove_keeps; [exact Hin|]. intros E. apply Hne. rewrite E. apply firstn_length_app.
  - split.
    + intros e Hin. exact (proj2 (clear_token_dir_spec base f e) Hin).
    + intros e Hin Hne. exact (proj1 (clear_token_dir_spec base f e) Hin Hne).
Qed.

(** ** Witnesses of the further properties *)

Lemma get_client_for_user_cached_witness :
  get_client_for_user true (mk_cache [] 0) "alice"
    = Some (mk_client "alice" 0, mk_cache [("alice", mk_client "alice" 0)] 1)
  /\ get_client_for_user false (mk_cache [("alice", mk_client "alice" 0)] 1) "alice"
     = Some (mk_client "alice" 0, mk_cache [("alice", mk_client "alice" 0)] 1)
  /\ (forall v, v <> "alice" ->
      clients_lookup (user_clients (mk_cache [("alice", mk_client "alice" 0)] 1)) v
      = clients_lookup (user_clients (mk_cache [] 0)) v).
Proof.
  split; [reflexivity|].
  exact (get_client_for_user_cached true false (mk_cache [] 0)
           (mk_cache [("alice", mk_client "alice" 0)] 1) "alice" (mk_client "alice" 0) eq_refl).
Defined.

Lemma clear_client_for_user_fresh_witness :
  cache_wf (mk_cache [("alice", mk_client "alice" 0)] 1)
  /\ get_client_for_user true (clear_client_for_user (mk_cache [("alice", mk_client "alice" 0)] 1) "alice") "alice"
     = Some (mk_client "alice" 1, mk_cache [("alice", mk_client "alice" 1)] 2)
  /\ (forall v c0, clients_lookup [("alice", mk_client "alice" 0)] v = Some c0 -> mk_client "alice" 1 <> c0).
Proof.
  assert (Hwf : cache_wf (mk_cache [("alice", mk_client "alice" 0)] 1)).
  { unfold cache_wf. apply Forall_cons; [simpl; lia|apply Forall_nil]. }
  split; [exact Hwf|]. split; [reflexivity|].
  apply (clear_client_for_user_fresh true (mk_cache [("alice", mk_client "alice" 0)] 1)
           (mk_cache [("alice", mk_client "alice" 1)] 2) "alice" (mk_client "alice" 1) Hwf eq_refl).
Defined.

Lemma format_recent_turns_bounds_witness :
  format_recent_turns (fun _ => "?")
    (Some [("recent_messages", PList [PDict [("role", PStr "user"); ("content", PStr "hi")];
                                      PDict [("content", PStr "")]])]) = Ok ["User: hi"]
  /\ (length ["User: hi"] <= 6)%nat /\ Forall turn_line_ok ["User: hi"].
Proof.
  assert (H : format_recent_turns (fun _ => "?")
    (Some [("recent_messages", PList [PDict [("role", PStr "user"); ("content", PStr "hi")];
                                      PDict [("content", PStr "")]])]) = Ok ["User: hi"])
    by reflexivity.
  split; [exact H|].
  destruct (format_recent_turns_bounds _ _ _ H) as [H1 [H2 _]]. split; assumption.
Defined.

Lemma format_recent_turns_last_six_witness :
  (6 <= length [PNone; PNone; PNone; PNone; PNone; PDict [("content", PStr "six")]])%nat
  /\ format_recent_turns (fun _ => "?")
       (Some (dict_set [] "recent_messages"
               (PList ([PInt 1] ++ [PNone; PNone; PNone; PNone; PNone; PDict [("content", PStr "six")]]))))
     = format_recent_turns (fun _ => "?")
       (Some (dict_set [] "recent_messages"
               (PList [PNone; PNone; PNone; PNone; PNone; PDict [("content", PStr "six")]]))).
Proof.
  assert (H : (6 <= length [PNone; PNone; PNone; PNone; PNone; PDict [("content", PStr "six")]])%nat)
    by (simpl; lia).
  split; [exact H|]. exact (format_recent_turns_last_six _ [] [PInt 1] _ H).
Defined.

Lemma normalize_hr_zones_totals_witness :
  exists zones tmin,
    normalize_hr_zones (PList (map PDict [[("secsInZone", PInt 60)]; [("secsInZone", PInt 180)]])) =
      Ok (PDict [("zones", PList (map PDict zones)); ("total_time_s", PInt 240);
                 ("total_time_min", tmin); ("has_complete_data", PBool false)]).
Proof.
  assert (Hne : [[("secsInZone", PInt 60)]; [("secsInZone", PInt 180)]] <> ([] : list dict))
    by discriminate.
  assert (Hs : Forall2 (fun z s => dict_get z "secsInZone" (PInt 0) = PInt s)
                 [[("secsInZone", PInt 60)]; [("secsInZone", PInt 180)]] [60%Z; 180%Z])
    by (repeat constructor).
  destruct (normalize_hr_zones_totals _ _ Hne Hs) as [H|[zones [tmin [H _]]]].
  - vm_compute in H. discriminate H.
  - exists zones, tmin. exact H.
Defined.

Lemma normalize_laps_numbering_witness :
  exists out, normalize_laps json_decode [PInt 7; PDict [("distance", PInt 1000); ("duration", PInt 300)]] = Ok out
    /\ map (fun l => field l "lap_number") out = [PInt 2].
Proof.
  destruct (normalize_laps json_decode [PInt 7; PDict [("distance", PInt 1000); ("duration", PInt 300)]])
    as [out|e] eqn:E; [|vm_compute in E; discriminate E].
  exists out. split; [reflexivity|].
  rewrite (normalize_laps_numbering json_decode _ out E). reflexivity.
Defined.

Lemma detect_follow_up_rules_witness :
  has_recent_messages (Some [("recent_messages", PList [PStr "earlier"])]) = true
  /\ detect_follow_up "What about tempo?" (Some [("recent_messages", PList [PStr "earlier"])]) = true.
Proof.
  assert (H : has_recent_messages (Some [("recent_messages", PList [PStr "earlier"])]) = true)
    by reflexivity.
  split; [exact H|].
  destruct (detect_follow_up_rules "What about tempo?" _ H) as [Hs _].
  apply Hs. simpl. lia.
Defined.


Lemma normalize_activity_data_splits_first_witness :
  exists dk dm laps,
    activity_totals json_decode (dict_get (activity_summary [("activityId", PInt 1); ("lapDTOs", PList [PInt 9])]) "distance" (PInt 0))
      (dict_get (activity_summary [("activityId", PInt 1); ("lapDTOs", PList [PInt 9])]) "duration" (PInt 0))
      (get_splits_safely json_decode (PDict [("lapDTOs", PList [PDict [("distance", PInt 1000); ("duration", PInt 300)]])])) = Ok (dk, dm, laps)
    /\ field (field (snd (normalize_activity_data json_decode
         [("raw_activity", PDict [("activityId", PInt 1); ("lapDTOs", PList [PInt 9])]); ("raw_splits", (PDict [("lapDTOs", PList [PDict [("distance", PInt 1000); ("duration", PInt 300)]])]))])) "activity") "laps" = PList laps.
Proof.
  destruct (normalize_activity_data_splits_first json_decode
              [("raw_activity", PDict [("activityId", PInt 1); ("lapDTOs", PList [PInt 9])]); ("raw_splits", (PDict [("lapDTOs", PList [PDict [("distance", PInt 1000); ("duration", PInt 300)]])]))]
              [("activityId", PInt 1); ("lapDTOs", PList [PInt 9])] eq_refl eq_refl eq_refl eq_refl) as [_ H].
  apply H. vm_compute. discriminate.
Defined.

Lemma normalize_activity_encodings_witness :
  normalize_activity json_decode (PStr (jq "{'activityId': 1}"))
  = normalize_activity json_decode (PDict [("activityId", PInt 1)]).
Proof.
  destruct (normalize_activity_encodings json_decode (jq "{'activityId': 1}") [("activityId", PInt 1)]
              ltac:(vm_compute; reflexivity) ltac:(discriminate) ltac:(discriminate) eq_refl)
    as [H1 [H2 _]].
  rewrite H1, H2. reflexivity.
Defined.

Lemma normalize_activity_empty_object_text_witness :
  exists out, normalize_activity json_decode (PStr "{}") = Ok out
    /\ field out "name" = PStr "Unnamed Run".
Proof.
  destruct (normalize_activity_empty_object_text json_decode "{}" ltac:(vm_compute; reflexivity)
              ltac:(discriminate)) as [_ [out [H1 [H2 _]]]].
  exists out. split; assumption.
Defined.
